(** * love-always-backend: authentication, upload pipeline and moderation

    A shallow embedding of the request middleware ([middleware/auth.js],
    [middleware/upload.js]), of the song model ([models/Song.js]) and of the
    song routes ([routes/songs.js]), together with the properties the
    specification states about them.

    JavaScript values are modelled as follows: strings are [string] (one
    [ascii] per code unit), numbers that the code does arithmetic on are
    IEEE-754 binary64 [float]s, byte counts and timestamps are [Z],
    [undefined]/[null] is [None], schema enums are inductive types, and the
    Mongo collections are [gmap]s keyed by the document id. *)

From Stdlib Require Import ZArith String Ascii List Bool Floats Lia.
From stdpp Require Import base option gmap strings pretty.
Import ListNotations.

Local Open Scope string_scope.
Local Open Scope Z_scope.

(** ** The JavaScript runtime: exceptions, effects, strings *)

Module Js.

(** An [Error] object: its [name], its [message] and, for a Mongoose
    validation error, the messages of its [errors]. *)
Record JsError := mkError {
  err_name : string;
  err_message : string;
  err_errors : list string
}.

(** The completion of an expression: a value or a thrown error. *)
Inductive result (A : Type) : Type :=
| Ok (a : A)
| Throw (e : JsError).
Arguments Ok {A} a.
Arguments Throw {A} e.

(** Effectful code over a mutable state [S]. A throw keeps the mutations
    made before it, as in JavaScript. *)
Definition Eff (S A : Type) : Type := S -> result A * S.

Definition ret {S A} (a : A) : Eff S A := fun s => (Ok a, s).
Definition throw {S A} (e : JsError) : Eff S A := fun s => (Throw e, s).
Definition bind {S A B} (m : Eff S A) (k : A -> Eff S B) : Eff S B :=
  fun s => match m s with
           | (Ok a, s') => k a s'
           | (Throw e, s') => (Throw e, s')
           end.
(** [try { m } catch (e) { h e }] *)
Definition catch {S A} (m : Eff S A) (h : JsError -> Eff S A) : Eff S A :=
  fun s => match m s with
           | (Ok a, s') => (Ok a, s')
           | (Throw e, s') => h e s'
           end.
Definition lift_result {S A} (r : result A) : Eff S A := fun s => (r, s).

(** [String.prototype.startsWith] *)
Definition startsWith (s p : string) : bool := String.prefix p s.

Fixpoint drop (n : nat) (s : string) : string :=
  match n, s with
  | O, _ => s
  | S n', String _ s' => drop n' s'
  | S _, EmptyString => EmptyString
  end.

(** [s.replace(pat, rep)] with a string pattern: the first occurrence only. *)
Fixpoint replace (pat rep s : string) : string :=
  if String.prefix pat s then rep +:+ drop (String.length pat) s
  else match s with
       | EmptyString => EmptyString
       | String c s' => String c (replace pat rep s')
       end.

(** [String.prototype.slice] with non-negative bounds. *)
Definition slice (s : string) (from to : Z) : string :=
  String.substring (Z.to_nat from) (Z.to_nat (to - from)) s.

Definition lower_ascii (c : ascii) : ascii :=
  let n := N_of_ascii c in
  if ((65 <=? n) && (n <=? 90))%N then ascii_of_N (n + 32) else c.

(** [String.prototype.toLowerCase], on the ASCII letters. *)
Fixpoint toLowerCase (s : string) : string :=
  match s with
  | EmptyString => EmptyString
  | String c s' => String (lower_ascii c) (toLowerCase s')
  end.

Definition is_space (c : ascii) : bool :=
  let n := N_of_ascii c in
  ((9 <=? n) && (n <=? 13) || (n =? 32))%N.

Fixpoint trimStart (s : string) : string :=
  match s with
  | String c s' => if is_space c then trimStart s' else s
  | EmptyString => EmptyString
  end.

Fixpoint trimEnd (s : string) : string :=
  match s with
  | EmptyString => EmptyString
  | String c s' =>
    match trimEnd s' with
    | EmptyString => if is_space c then EmptyString else String c EmptyString
    | t => String c t
    end
  end.

(** [String.prototype.trim], on the ASCII white space. *)
Definition trim (s : string) : string := trimEnd (trimStart s).

(** [s] between double quotes. *)
Definition quoted (s : string) : string :=
  String (ascii_of_N 34) (s +:+ String (ascii_of_N 34) EmptyString).

(** [Array.prototype.includes] on an array of strings. *)
Definition includes (l : list string) (x : string) : bool :=
  existsb (String.eqb x) l.

(** A string is falsy exactly when it is [undefined] or empty. *)
Definition truthy (v : option string) : bool :=
  match v with
  | Some s => negb (String.eqb s "")
  | None => false
  end.

End Js.

(** ** Node's [path] module (POSIX flavour) *)

Module Path.

(** The loop state of [path.extname]: indices, with [-1] for "not seen". *)
Record ExtState := mkExt {
  startDot : Z;
  startPart : Z;
  end_ : Z;
  matchedSlash : bool;
  preDotState : Z;
  stopped : bool
}.

Definition ext_init : ExtState := mkExt (-1) 0 (-1) true 0 false.

(** One iteration of the right-to-left scan at index [i]. *)
Definition ext_step (st : ExtState) (i : Z) (code : ascii) : ExtState :=
  if stopped st then st
  else if Ascii.eqb code "/"%char then
    if negb (matchedSlash st)
    then mkExt (startDot st) (i + 1) (end_ st) (matchedSlash st) (preDotState st) true
    else st
  else
    let st1 :=
      if end_ st =? -1
      then mkExt (startDot st) (startPart st) (i + 1) false (preDotState st) false
      else st in
    if Ascii.eqb code "."%char then
      if startDot st1 =? -1
      then mkExt i (startPart st1) (end_ st1) (matchedSlash st1) (preDotState st1) false
      else if negb (preDotState st1 =? 1)
      then mkExt (startDot st1) (startPart st1) (end_ st1) (matchedSlash st1) 1 false
      else st1
    else if negb (startDot st1 =? -1)
    then mkExt (startDot st1) (startPart st1) (end_ st1) (matchedSlash st1) (-1) false
    else st1.

(** Scans the characters given last-first, [i] being the index of the head. *)
Fixpoint ext_scan (rev_chars : list ascii) (i : Z) (st : ExtState) : ExtState :=
  match rev_chars with
  | [] => st
  | c :: rest => ext_scan rest (i - 1) (ext_step st i c)
  end.

(** [path.extname(p)] *)
Definition extname (p : string) : string :=
  let chars := list_ascii_of_string p in
  let st := ext_scan (rev chars) (Z.of_nat (List.length chars) - 1) ext_init in
  if (startDot st =? -1) || (end_ st =? -1) || (preDotState st =? 0)
     || ((preDotState st =? 1) && (startDot st =? end_ st - 1)
         && (startDot st =? startPart st + 1))
  then ""
  else Js.slice p (startDot st) (end_ st).

(** The loop state of [path.basename]. *)
Record BaseState := mkBase {
  b_start : Z;
  b_end : Z;
  b_matchedSlash : bool;
  b_extIdx : Z;
  b_firstNonSlashEnd : Z;
  b_stopped : bool
}.

(** One iteration of the scan when a suffix is to be removed. *)
Definition base_step_suffix (suffix : string) (st : BaseState) (i : Z) (code : ascii)
  : BaseState :=
  if b_stopped st then st
  else if Ascii.eqb code "/"%char then
    if negb (b_matchedSlash st)
    then mkBase (i + 1) (b_end st) (b_matchedSlash st) (b_extIdx st)
                (b_firstNonSlashEnd st) true
    else st
  else
    let st1 :=
      if b_firstNonSlashEnd st =? -1
      then mkBase (b_start st) (b_end st) false (b_extIdx st) (i + 1) false
      else st in
    if 0 <=? b_extIdx st1 then
      if bool_decide (String.get (Z.to_nat (b_extIdx st1)) suffix = Some code)
      then
        if b_extIdx st1 - 1 =? -1
        then mkBase (b_start st1) i (b_matchedSlash st1) (b_extIdx st1 - 1)
                    (b_firstNonSlashEnd st1) false
        else mkBase (b_start st1) (b_end st1) (b_matchedSlash st1) (b_extIdx st1 - 1)
                    (b_firstNonSlashEnd st1) false
      else mkBase (b_start st1) (b_firstNonSlashEnd st1) (b_matchedSlash st1) (-1)
                  (b_firstNonSlashEnd st1) false
    else st1.

(** One iteration of the scan without a suffix. *)
Definition base_step (st : BaseState) (i : Z) (code : ascii) : BaseState :=
  if b_stopped st then st
  else if Ascii.eqb code "/"%char then
    if negb (b_matchedSlash st)
    then mkBase (i + 1) (b_end st) (b_matchedSlash st) (b_extIdx st)
                (b_firstNonSlashEnd st) true
    else st
  else if b_end st =? -1
  then mkBase (b_start st) (i + 1) false (b_extIdx st) (b_firstNonSlashEnd st) false
  else st.

Fixpoint base_scan (step : BaseState -> Z -> ascii -> BaseState)
    (rev_chars : list ascii) (i : Z) (st : BaseState) : BaseState :=
  match rev_chars with
  | [] => st
  | c :: rest => base_scan step rest (i - 1) (step st i c)
  end.

(** [path.basename(p, suffix)] *)
Definition basename (p suffix : string) : string :=
  let chars := list_ascii_of_string p in
  let len := Z.of_nat (List.length chars) in
  let slen := Z.of_nat (String.length suffix) in
  if (0 <? slen) && (slen <=? len) then
    if String.eqb suffix p then ""
    else
      let st := base_scan (base_step_suffix suffix) (rev chars) (len - 1)
                  (mkBase 0 (-1) true (slen - 1) (-1) false) in
      let end' :=
        if b_start st =? b_end st then b_firstNonSlashEnd st
        else if b_end st =? -1 then len
        else b_end st in
      Js.slice p (b_start st) end'
  else
    let st := base_scan base_step (rev chars) (len - 1)
                (mkBase 0 (-1) true (-1) (-1) false) in
    if b_end st =? -1 then "" else Js.slice p (b_start st) (b_end st).

End Path.

(** ** [models/User.js] *)

Module UserModel.

(** [role: { enum: ['senior', 'contributor', 'admin'], default: 'senior' }] *)
Inductive Role := senior | contributor | admin.

Definition Role_eqb (a b : Role) : bool :=
  match a, b with
  | senior, senior | contributor, contributor | admin, admin => true
  | _, _ => false
  end.

Definition Role_name (r : Role) : string :=
  match r with
  | senior => "senior"
  | contributor => "contributor"
  | admin => "admin"
  end.

Record UserStats := mkUserStats {
  songsUploaded : float;
  songsPlayed : float;
  lastLogin : Z
}.

(** A user document as the read paths see it (the password is never
    selected). *)
Record User := mkUser {
  _id : string;
  name : string;
  email : string;
  role : Role;
  stats : UserStats;
  isActive : bool
}.

Definition with_stats (u : User) (st : UserStats) : User :=
  mkUser (_id u) (name u) (email u) (role u) st (isActive u).

(** [{ $inc: { 'stats.songsUploaded': 1 } }] *)
Definition inc_songsUploaded (u : User) : User :=
  with_stats u (mkUserStats (songsUploaded (stats u) + 1)%float
                            (songsPlayed (stats u)) (lastLogin (stats u))).

End UserModel.

(** ** [models/Song.js]: the schema *)

Module SongModel.

(** [status: { enum: ['pending', 'approved', 'rejected', 'hidden'] }] *)
Inductive Status := pending | approved | rejected | hidden.

Record FileInfo := mkFileInfo {
  filename : string;
  originalName : string;
  mimeType : string;
  size : Z;
  url : string
}.

Record Stats := mkStats {
  playCount : float;
  favoriteCount : float;
  downloadCount : float;
  lastPlayed : option Z;
  averageRating : float;
  ratingCount : float
}.

Record Accessibility := mkAccessibility {
  hasLargeText : bool;
  hasHighContrast : bool;
  transcriptionAvailable : bool
}.

(** A song document. [isNew] is Mongoose's own flag: the document has not
    been written yet. *)
Record Song := mkSong {
  _id : string;
  title : option string;
  artist : option string;
  album : string;
  genre : string;
  year : option float;
  duration : option float;
  lyrics : string;
  language : string;
  audioFile : FileInfo;
  coverImage : option FileInfo;
  uploadedBy : string;
  status : Status;
  moderationNotes : string;
  moderatedBy : option string;
  moderatedAt : option Z;
  stats : Stats;
  accessibility : Accessibility;
  tags : list string;
  playlists : list string;
  isActive : bool;
  isFeatured : bool;
  featuredAt : option Z;
  isNew : bool
}.

(** The object literal handed to [new Song(...)] by the upload route. *)
Record SongData := mkSongData {
  d_title : option string;
  d_artist : option string;
  d_album : string;
  d_genre : string;
  d_year : option float;
  d_duration : option float;
  d_lyrics : string;
  d_language : string;
  d_tags : list string;
  d_uploadedBy : string;
  d_audioFile : FileInfo;
  d_coverImage : option FileInfo;
  d_status : option Status;
  d_moderatedBy : option string;
  d_moderatedAt : option Z
}.

Definition default_stats : Stats := mkStats 0 0 0 None 0 0.
Definition default_accessibility : Accessibility := mkAccessibility false false false.

(** [new Song(songData)]: the given paths (through the [trim] setters of
    the schema), the schema defaults elsewhere (notably
    [status: 'pending'], [isActive: true], zeroed stats). *)
Definition new_Song (id : string) (d : SongData) : Song :=
  {| _id := id;
     title := Js.trim <$> d_title d;
     artist := Js.trim <$> d_artist d;
     album := Js.trim (d_album d);
     genre := Js.trim (d_genre d);
     year := d_year d;
     duration := d_duration d;
     lyrics := d_lyrics d;
     language := d_language d;
     audioFile := d_audioFile d;
     coverImage := d_coverImage d;
     uploadedBy := d_uploadedBy d;
     status := match d_status d with Some st => st | None => pending end;
     moderationNotes := "";
     moderatedBy := d_moderatedBy d;
     moderatedAt := d_moderatedAt d;
     stats := default_stats;
     accessibility := default_accessibility;
     tags := map Js.trim (d_tags d);
     playlists := [];
     isActive := true;
     isFeatured := false;
     featuredAt := None;
     isNew := true |}.

(** Assignments to document paths. *)
Definition with_stats (s : Song) (st : Stats) : Song :=
  mkSong (_id s) (title s) (artist s) (album s) (genre s) (year s) (duration s)
    (lyrics s) (language s) (audioFile s) (coverImage s) (uploadedBy s)
    (status s) (moderationNotes s) (moderatedBy s) (moderatedAt s)
    st (accessibility s) (tags s) (playlists s)
    (isActive s) (isFeatured s) (featuredAt s) (isNew s).

Definition with_moderation (s : Song) (st : Status) (notes : string)
    (by_ : option string) (at_ : option Z) : Song :=
  mkSong (_id s) (title s) (artist s) (album s) (genre s) (year s) (duration s)
    (lyrics s) (language s) (audioFile s) (coverImage s) (uploadedBy s)
    st notes by_ at_
    (stats s) (accessibility s) (tags s) (playlists s)
    (isActive s) (isFeatured s) (featuredAt s) (isNew s).

Definition with_isActive (s : Song) (b : bool) : Song :=
  mkSong (_id s) (title s) (artist s) (album s) (genre s) (year s) (duration s)
    (lyrics s) (language s) (audioFile s) (coverImage s) (uploadedBy s)
    (status s) (moderationNotes s) (moderatedBy s) (moderatedAt s)
    (stats s) (accessibility s) (tags s) (playlists s)
    b (isFeatured s) (featuredAt s) (isNew s).

Definition with_isNew (s : Song) (b : bool) : Song :=
  mkSong (_id s) (title s) (artist s) (album s) (genre s) (year s) (duration s)
    (lyrics s) (language s) (audioFile s) (coverImage s) (uploadedBy s)
    (status s) (moderationNotes s) (moderatedBy s) (moderatedAt s)
    (stats s) (accessibility s) (tags s) (playlists s)
    (isActive s) (isFeatured s) (featuredAt s) b.

End SongModel.

Declare Scope eff_scope.
Delimit Scope eff_scope with eff.
Notation "x <- m ;; k" := (Js.bind m (fun x => k))
  (at level 100, m at next level, right associativity) : eff_scope.
Notation "m ;;; k" := (Js.bind m (fun _ => k))
  (at level 100, right associativity) : eff_scope.

(** ** The document store behind the Mongoose models *)

Module Store.
Import Js.

Record Db := mkDb {
  songs : gmap string SongModel.Song;
  users : gmap string UserModel.User
}.

(** The operations sent to the store. *)
Inductive DbOp :=
| FindUser (id : option string)
| FindSong (id : option string)
| ValidateSong (s : SongModel.Song)
| WriteSong (s : SongModel.Song)
| IncSongsUploaded (id : string)
| PopulateUploader (id : string).

(** What the store does with an operation: [Some e] when it rejects with
    [e] (an invalid id, a schema validation error, a lost connection),
    [None] when it carries the operation out. *)
Definition Driver := DbOp -> option JsError.

Definition healthy : Driver := fun _ => None.

Section WithDriver.
Variable drv : Driver.

(** [User.findById(id).select('-password')] *)
Definition User_findById (id : option string) : Eff Db (option UserModel.User) :=
  fun db =>
    match drv (FindUser id) with
    | Some e => (Throw e, db)
    | None => (Ok (match id with
                   | Some i => users db !! i
                   | None => None
                   end), db)
    end.

(** [Song.findById(id)]; a document read from the store is not new. *)
Definition Song_findById (id : option string) : Eff Db (option SongModel.Song) :=
  fun db =>
    match drv (FindSong id) with
    | Some e => (Throw e, db)
    | None => (Ok (match id with
                   | Some i =>
                     (fun s => SongModel.with_isNew s false) <$> (songs db !! i)
                   | None => None
                   end), db)
    end.

(** [songSchema.pre('save', ...)]: a new document bumps its uploader's
    [stats.songsUploaded]; a failure there is logged and swallowed. *)
Definition pre_save (this : SongModel.Song) (db : Db) : Db :=
  if SongModel.isNew this && negb (String.eqb (SongModel.uploadedBy this) "")
  then match drv (IncSongsUploaded (SongModel.uploadedBy this)) with
       | Some _ => db
       | None => mkDb (songs db)
                      (alter UserModel.inc_songsUploaded
                             (SongModel.uploadedBy this) (users db))
       end
  else db.

(** [this.save()]: validation, then the pre-save hook, then the write.
    The state is the document in memory together with the store. *)
Definition save : Eff (SongModel.Song * Db) SongModel.Song :=
  fun '(this, db) =>
    match drv (ValidateSong this) with
    | Some e => (Throw e, (this, db))
    | None =>
      let db1 := pre_save this db in
      match drv (WriteSong this) with
      | Some e => (Throw e, (this, db1))
      | None =>
        let saved := SongModel.with_isNew this false in
        (Ok saved,
         (saved, mkDb (<[SongModel._id saved := saved]> (songs db1)) (users db1)))
      end
    end.

(** [song.populate('uploadedBy', 'name')]: the uploader's id and name,
    [null] when the user is gone. *)
Definition populate_uploadedBy (s : SongModel.Song)
  : Eff Db (option (string * string)) :=
  fun db =>
    match drv (PopulateUploader (SongModel.uploadedBy s)) with
    | Some e => (Throw e, db)
    | None => (Ok (match users db !! SongModel.uploadedBy s with
                   | Some u => Some (UserModel._id u, UserModel.name u)
                   | None => None
                   end), db)
    end.

(** Calling a method on the document held in a local variable. *)
Definition call {A} (m : Eff (SongModel.Song * Db) A) (doc : SongModel.Song)
  : Eff Db (A * SongModel.Song) :=
  fun db =>
    match m (doc, db) with
    | (Ok a, (doc', db')) => (Ok (a, doc'), db')
    | (Throw e, (_, db')) => (Throw e, db')
    end.

End WithDriver.

End Store.

(** ** [models/Song.js]: the instance methods *)

Module SongMethods.
Import Js SongModel Store.
Local Open Scope eff_scope.

Definition this : Eff (Song * Db) Song := fun st => (Ok (fst st), st).
Definition assign (f : Song -> Song) : Eff (Song * Db) unit :=
  fun st => (Ok tt, (f (fst st), snd st)).

Definition set_playCount (v : float) (s : Song) : Song :=
  with_stats s (mkStats v (favoriteCount (stats s)) (downloadCount (stats s))
                  (lastPlayed (stats s)) (averageRating (stats s))
                  (ratingCount (stats s))).
Definition set_lastPlayed (v : option Z) (s : Song) : Song :=
  with_stats s (mkStats (playCount (stats s)) (favoriteCount (stats s))
                  (downloadCount (stats s)) v (averageRating (stats s))
                  (ratingCount (stats s))).
Definition set_averageRating (v : float) (s : Song) : Song :=
  with_stats s (mkStats (playCount (stats s)) (favoriteCount (stats s))
                  (downloadCount (stats s)) (lastPlayed (stats s)) v
                  (ratingCount (stats s))).
Definition set_ratingCount (v : float) (s : Song) : Song :=
  with_stats s (mkStats (playCount (stats s)) (favoriteCount (stats s))
                  (downloadCount (stats s)) (lastPlayed (stats s))
                  (averageRating (stats s)) v).
Definition set_status (v : Status) (s : Song) : Song :=
  with_moderation s v (moderationNotes s) (moderatedBy s) (moderatedAt s).
Definition set_moderatedBy (v : option string) (s : Song) : Song :=
  with_moderation s (status s) (moderationNotes s) v (moderatedAt s).
Definition set_moderatedAt (v : option Z) (s : Song) : Song :=
  with_moderation s (status s) (moderationNotes s) (moderatedBy s) v.
Definition set_moderationNotes (v : string) (s : Song) : Song :=
  with_moderation s (status s) v (moderatedBy s) (moderatedAt s).

Section WithDriver.
Variable drv : Driver.

(** [songSchema.methods.incrementPlayCount]; [now] is [new Date()]. *)
Definition incrementPlayCount (now : Z) : Eff (Song * Db) Song :=
  s <- this ;;
  assign (set_playCount (playCount (stats s) + 1)%float) ;;;
  assign (set_lastPlayed (Some now)) ;;;
  save drv.

(** [songSchema.methods.addRating] *)
Definition addRating (rating : float) : Eff (Song * Db) Song :=
  if (rating <? 1)%float || (5 <? rating)%float
  then throw (mkError "Error" "Rating must be between 1 and 5" [])
  else
    s <- this ;;
    let totalRating := (averageRating (stats s) * ratingCount (stats s))%float in
    assign (set_ratingCount (ratingCount (stats s) + 1)%float) ;;;
    s1 <- this ;;
    assign (set_averageRating ((totalRating + rating) / ratingCount (stats s1))%float) ;;;
    save drv.

(** [songSchema.methods.approve]; [now] is [new Date()]. *)
Definition approve (moderatorId : string) (notes : string) (now : Z)
  : Eff (Song * Db) Song :=
  assign (set_status approved) ;;;
  assign (set_moderatedBy (Some moderatorId)) ;;;
  assign (set_moderatedAt (Some now)) ;;;
  assign (set_moderationNotes notes) ;;;
  save drv.

(** [songSchema.methods.reject] *)
Definition reject (moderatorId : string) (notes : string) (now : Z)
  : Eff (Song * Db) Song :=
  assign (set_status rejected) ;;;
  assign (set_moderatedBy (Some moderatorId)) ;;;
  assign (set_moderatedAt (Some now)) ;;;
  assign (set_moderationNotes notes) ;;;
  save drv.

End WithDriver.

End SongMethods.

(** ** Requests and responses (Express) *)

Module Http.
Import Js.

(** One file part of a multipart body, as it arrives on the wire. *)
Record Part := mkPart {
  p_fieldname : string;
  p_originalname : string;
  p_mimetype : string;
  p_size : Z
}.

(** A file object as Multer's disk storage leaves it on the request. *)
Record File := mkFile {
  fieldname : string;
  originalname : string;
  mimetype : string;
  size : Z;
  destination : string;
  filename : string;
  path : string
}.

(** [{ ...file, url }] *)
Record FileWithUrl := mkFileWithUrl { base : File; url : string }.

(** The text fields of the upload form. *)
Record SongForm := mkSongForm {
  f_title : option string;
  f_artist : option string;
  f_album : option string;
  f_genre : option string;
  f_year : option string;
  f_duration : option string;
  f_lyrics : option string;
  f_language : option string;
  f_tags : option (list string)
}.

Definition empty_form : SongForm :=
  mkSongForm None None None None None None None None None.

Record Request := mkRequest {
  headers : gmap string string;     (* keyed by lower-cased header name *)
  params : gmap string string;      (* route parameters *)
  body : SongForm;
  parts : option (list Part);       (* the file parts of a multipart body *)
  user : option UserModel.User;
  files : option (gmap string (list File));
  file : option File;
  audioFile : option FileWithUrl;
  coverImage : option FileWithUrl;
  uploadedImage : option FileWithUrl;
  cleanup : bool                    (* whether [req.cleanup] is installed *)
}.

Definition empty_request : Request :=
  mkRequest ∅ ∅ empty_form None None None None None None None false.

(** [req.header(name)]: header names are case-insensitive. *)
Definition header (req : Request) (name : string) : option string :=
  headers req !! toLowerCase name.

Definition set_user (req : Request) (u : option UserModel.User) : Request :=
  mkRequest (headers req) (params req) (body req) (parts req) u (files req)
    (file req) (audioFile req) (coverImage req) (uploadedImage req) (cleanup req).
Definition set_files (req : Request) (v : option (gmap string (list File))) : Request :=
  mkRequest (headers req) (params req) (body req) (parts req) (user req) v
    (file req) (audioFile req) (coverImage req) (uploadedImage req) (cleanup req).
Definition set_file (req : Request) (v : option File) : Request :=
  mkRequest (headers req) (params req) (body req) (parts req) (user req) (files req)
    v (audioFile req) (coverImage req) (uploadedImage req) (cleanup req).
Definition set_audioFile (req : Request) (v : option FileWithUrl) : Request :=
  mkRequest (headers req) (params req) (body req) (parts req) (user req) (files req)
    (file req) v (coverImage req) (uploadedImage req) (cleanup req).
Definition set_coverImage (req : Request) (v : option FileWithUrl) : Request :=
  mkRequest (headers req) (params req) (body req) (parts req) (user req) (files req)
    (file req) (audioFile req) v (uploadedImage req) (cleanup req).
Definition set_uploadedImage (req : Request) (v : option FileWithUrl) : Request :=
  mkRequest (headers req) (params req) (body req) (parts req) (user req) (files req)
    (file req) (audioFile req) (coverImage req) v (cleanup req).
Definition set_cleanup (req : Request) (v : bool) : Request :=
  mkRequest (headers req) (params req) (body req) (parts req) (user req) (files req)
    (file req) (audioFile req) (coverImage req) (uploadedImage req) v.

(** The JSON bodies the handlers send. *)
Inductive Body :=
| ErrorBody (error message : string)
| ErrorDetails (error message : string) (details : list string)
| MessageBody (message : string)
| SongBody (message : string) (song : SongModel.Song)
           (uploader : option (string * string)).

Record Response := mkResponse { res_status : Z; res_body : Body }.

(** [res.status(code).json({ error, message })] *)
Definition fail (code : Z) (error message : string) : Response :=
  mkResponse code (ErrorBody error message).

(** What a middleware does with a request: it answers, or it calls
    [next()] with the request as it has left it. *)
Inductive Outcome :=
| Respond (res : Response)
| Next (req : Request).

End Http.

(** ** [middleware/auth.js] *)

Module Auth.
Import Js Http Store.
Local Open Scope eff_scope.

(** The claims of a verified token. *)
Record Payload := mkPayload { userId : option string }.

Section WithEnvironment.
(** [jwt.verify(token, secret)] of the jsonwebtoken package. *)
Variable jwt_verify : string -> string -> result Payload.
(** [process.env.JWT_SECRET] *)
Variable JWT_SECRET : option string.
Variable drv : Driver.

Definition secret : string :=
  match JWT_SECRET with
  | Some s => if String.eqb s "" then "fallback-secret-key" else s
  | None => "fallback-secret-key"
  end.

(** The inner [try] block of [authenticate]. *)
Definition resolve_user (req : Request) (token : string) : Eff Db Outcome :=
  decoded <- lift_result (jwt_verify token secret) ;;
  found <- User_findById drv (userId decoded) ;;
  match found with
  | None => ret (Respond (fail 401 "Invalid token" "User not found"))
  | Some u =>
    if negb (UserModel.isActive u)
    then ret (Respond (fail 401 "Account deactivated"
           "Your account has been deactivated. Please contact support."))
    else ret (Next (set_user req (Some u)))
  end.

(** The handler of the inner [catch (jwtError)]. *)
Definition on_jwtError (jwtError : JsError) : Eff Db Outcome :=
  if String.eqb (err_name jwtError) "TokenExpiredError"
  then ret (Respond (fail 401 "Token expired"
         "Your session has expired. Please login again."))
  else if String.eqb (err_name jwtError) "JsonWebTokenError"
  then ret (Respond (fail 401 "Invalid token" "The provided token is invalid."))
  else throw jwtError.

(** [authenticate]: the required-mode middleware. *)
Definition authenticate (req : Request) : Eff Db Outcome :=
  catch
    (let authHeader := header req "Authorization" in
     match authHeader with
     | None =>
       ret (Respond (fail 401 "Access denied"
         "No valid token provided. Please include Bearer token in Authorization header."))
     | Some h =>
       if negb (truthy authHeader) || negb (startsWith h "Bearer ")
       then ret (Respond (fail 401 "Access denied"
         "No valid token provided. Please include Bearer token in Authorization header."))
       else
         let token := replace "Bearer " "" h in
         if String.eqb token ""
         then ret (Respond (fail 401 "Access denied" "Token is required"))
         else catch (resolve_user req token) on_jwtError
     end)
    (fun _ => ret (Respond (fail 500 "Authentication failed"
              "An error occurred during authentication"))).

(** [optionalAuth]: the same resolution, never blocking. *)
Definition optionalAuth (req : Request) : Eff Db Outcome :=
  catch
    (let authHeader := header req "Authorization" in
     match authHeader with
     | None => ret (Next (set_user req None))
     | Some h =>
       if negb (truthy authHeader) || negb (startsWith h "Bearer ")
       then ret (Next (set_user req None))
       else
         let token := replace "Bearer " "" h in
         if String.eqb token ""
         then ret (Next (set_user req None))
         else
           catch
             (decoded <- lift_result (jwt_verify token secret) ;;
              found <- User_findById drv (userId decoded) ;;
              match found with
              | Some u =>
                if UserModel.isActive u
                then ret (Next (set_user req (Some u)))
                else ret (Next (set_user req None))
              | None => ret (Next (set_user req None))
              end)
             (fun _ => ret (Next (set_user req None)))
     end)
    (fun _ => ret (Next (set_user req None))).

End WithEnvironment.

(** [authorize(...roles)] *)
Definition authorize (roles : list UserModel.Role) (req : Request) : Outcome :=
  match user req with
  | None => Respond (fail 401 "Authentication required"
              "You must be logged in to access this resource")
  | Some u =>
    if negb (existsb (UserModel.Role_eqb (UserModel.role u)) roles)
    then Respond (fail 403 "Insufficient permissions"
           ("Access denied. Required role: "
            +:+ String.concat " or " (map UserModel.Role_name roles)
            +:+ ". Your role: " +:+ UserModel.Role_name (UserModel.role u)))
    else Next req
  end.

(** [requireOwnershipOrAdmin(resourceUserIdPath = 'uploadedBy')]. Nothing
    in the body can throw on a well-formed request, so its [catch] branch
    (status 500) is never entered. *)
Definition requireOwnershipOrAdmin (resourceUserIdPath : string) (req : Request)
  : Outcome :=
  match user req with
  | None => Respond (fail 401 "Authentication required"
              "You must be logged in to access this resource")
  | Some u =>
    if UserModel.Role_eqb (UserModel.role u) UserModel.admin
    then Next req
    else
      let resourceId := params req !! "id" in
      if negb (truthy resourceId)
      then Respond (fail 400 "Resource ID required" "Resource ID must be provided")
      else if bool_decide (Some (UserModel._id u) = resourceId)
      then Next req
      else Respond (fail 403 "Access denied" "You can only access your own resources")
  end.

(** [sensitiveOperationLimit] *)
Definition sensitiveOperationLimit (req : Request) : Outcome := Next req.

End Auth.

(** ** The Multer middleware (the [multer] package, over busboy)

    Each file part of the request is handled in turn: busboy refuses a part
    beyond [limits.files]; Multer refuses a part whose field is not declared
    or has used up its [maxCount]; the configured [fileFilter] decides; the
    storage engine then writes the file, and a file longer than
    [limits.fileSize] bytes aborts the request. The first failure ends the
    upload. The files on disk themselves are not part of the model. *)

Module Multer.
Import Js Http.

Inductive Code :=
| LIMIT_PART_COUNT
| LIMIT_FILE_SIZE
| LIMIT_FILE_COUNT
| LIMIT_FIELD_KEY
| LIMIT_FIELD_VALUE
| LIMIT_FIELD_COUNT
| LIMIT_UNEXPECTED_FILE.

(** [err.message] of a [MulterError]. *)
Definition message (c : Code) : string :=
  match c with
  | LIMIT_PART_COUNT => "Too many parts"
  | LIMIT_FILE_SIZE => "File too large"
  | LIMIT_FILE_COUNT => "Too many files"
  | LIMIT_FIELD_KEY => "Field name too long"
  | LIMIT_FIELD_VALUE => "Field value too long"
  | LIMIT_FIELD_COUNT => "Too many fields"
  | LIMIT_UNEXPECTED_FILE => "Unexpected field"
  end.

(** The error handed to the completion callback. *)
Inductive Failure :=
| MulterError (code : Code)
| OtherError (e : JsError).

Record Limits := mkLimits { fileSize : Z; files : Z }.

Record Field := mkField { name : string; maxCount : Z }.

(** [multer({ storage, limits, fileFilter })]. The file filter answers
    [Ok true] (keep), [Ok false] (skip) or throws; the storage names the
    [n]-th file it writes. *)
Record Options := mkOptions {
  destination : Part -> string;
  filename : nat -> Part -> string;
  limits : Limits;
  fileFilter : Part -> result bool
}.

Definition filesLeft_init (fields : list Field) : gmap string Z :=
  fold_right (fun f m => <[name f := maxCount f]> m) ∅ fields.

(** The disk storage engine on one accepted part. *)
Definition store (o : Options) (n : nat) (p : Part) : File :=
  let d := destination o p in
  let f := filename o n p in
  mkFile (p_fieldname p) (p_originalname p) (p_mimetype p) (p_size p)
         d f (d +:+ "/" +:+ f).

(** Runs over the parts; [seen] counts the file parts met so far, [acc]
    holds the files written, oldest first. *)
Fixpoint receive (o : Options) (ps : list Part) (filesLeft : gmap string Z)
    (seen : Z) (acc : list File) : Failure + list File :=
  match ps with
  | [] => inr acc
  | p :: rest =>
    if seen =? files (limits o) then inl (MulterError LIMIT_FILE_COUNT)
    else if default 0 (filesLeft !! p_fieldname p) <=? 0
    then inl (MulterError LIMIT_UNEXPECTED_FILE)
    else
      let filesLeft' := <[p_fieldname p := default 0 (filesLeft !! p_fieldname p) - 1]> filesLeft in
      match fileFilter o p with
      | Throw e => inl (OtherError e)
      | Ok false => receive o rest filesLeft' (seen + 1) acc
      | Ok true =>
        if fileSize (limits o) <? p_size p
        then inl (MulterError LIMIT_FILE_SIZE)
        else receive o rest filesLeft' (seen + 1)
               (acc ++ [store o (List.length acc) p])%list
      end
  end.

(** [req.files] under [.fields(...)]: the files grouped by field name. *)
Definition group (fs : list File) : gmap string (list File) :=
  fold_left (fun m f => <[fieldname f := (default [] (m !! fieldname f) ++ [f])%list]> m) fs ∅.

(** [multer(o).fields(fields)], run on a request. A request that is not
    multipart is passed on untouched. *)
Definition fields (o : Options) (flds : list Field) (req : Request)
  : Failure + Request :=
  match parts req with
  | None => inr req
  | Some ps =>
    match receive o ps (filesLeft_init flds) 0 [] with
    | inl err => inl err
    | inr fs => inr (set_files req (Some (group fs)))
    end
  end.

(** [multer(o).single(field)] *)
Definition single (o : Options) (field : string) (req : Request)
  : Failure + Request :=
  match parts req with
  | None => inr req
  | Some ps =>
    match receive o ps (filesLeft_init [mkField field 1]) 0 [] with
    | inl err => inl err
    | inr fs => inr (set_file req (head fs))
    end
  end.

End Multer.

(** ** [middleware/upload.js] *)

Module Upload.
Import Js Http.

(** [storage.destination] *)
Definition storage_destination (file : Part) : string :=
  if String.eqb (p_fieldname file) "audio" then "uploads/audio"
  else if String.eqb (p_fieldname file) "coverImage" then "uploads/images"
  else "uploads/temp".

Definition is_alphanumeric (c : ascii) : bool :=
  let n := N_of_ascii c in
  ((97 <=? n) && (n <=? 122) || (65 <=? n) && (n <=? 90)
   || (48 <=? n) && (n <=? 57))%N.

(** [.replace(/[^a-zA-Z0-9]/g, '-')] *)
Fixpoint hyphenate (s : string) : string :=
  match s with
  | EmptyString => EmptyString
  | String c s' => String (if is_alphanumeric c then c else "-"%char) (hyphenate s')
  end.

(** [storage.filename]; [now] is [Date.now()] and [rnd] is
    [Math.round(Math.random() * 1E9)]. *)
Definition storage_filename (now rnd : Z) (file : Part) : string :=
  let uniqueSuffix := pretty now +:+ "-" +:+ pretty rnd in
  let extension := Path.extname (p_originalname file) in
  let baseName :=
    String.substring 0 50
      (hyphenate (Path.basename (p_originalname file) extension)) in
  baseName +:+ "-" +:+ uniqueSuffix +:+ extension.

Definition audio_allowedMimes : list string :=
  [ "audio/mpeg"; "audio/mp3"; "audio/wav"; "audio/wave"; "audio/x-wav";
    "audio/aac"; "audio/ogg"; "audio/webm"; "audio/mp4"; "audio/m4a";
    "audio/x-m4a"; "audio/flac" ].

Definition audio_allowedExtensions : list string :=
  [ ".mp3"; ".wav"; ".aac"; ".ogg"; ".webm"; ".mp4"; ".m4a"; ".flac" ].

(** [audioFileFilter] *)
Definition audioFileFilter (file : Part) : result bool :=
  let fileExtension := toLowerCase (Path.extname (p_originalname file)) in
  if includes audio_allowedMimes (p_mimetype file)
     || includes audio_allowedExtensions fileExtension
  then Ok true
  else Throw (mkError "Error"
         ("Invalid audio format. Allowed formats: "
          +:+ String.concat ", " audio_allowedExtensions) []).

Definition image_allowedMimes : list string :=
  [ "image/jpeg"; "image/jpg"; "image/png"; "image/gif"; "image/webp" ].

Definition image_allowedExtensions : list string :=
  [ ".jpg"; ".jpeg"; ".png"; ".gif"; ".webp" ].

(** [imageFileFilter] *)
Definition imageFileFilter (file : Part) : result bool :=
  let fileExtension := toLowerCase (Path.extname (p_originalname file)) in
  if includes image_allowedMimes (p_mimetype file)
     || includes image_allowedExtensions fileExtension
  then Ok true
  else Throw (mkError "Error"
         ("Invalid image format. Allowed formats: "
          +:+ String.concat ", " image_allowedExtensions) []).

(** [combinedFileFilter] *)
Definition combinedFileFilter (file : Part) : result bool :=
  if String.eqb (p_fieldname file) "audio" then audioFileFilter file
  else if String.eqb (p_fieldname file) "coverImage" then imageFileFilter file
  else Throw (mkError "Error" "Invalid field name" []).

Section WithEntropy.
(** The clock and random draw behind the name of the [n]-th stored file. *)
Variable entropy : nat -> Z * Z.

Definition storage_name (n : nat) (file : Part) : string :=
  storage_filename (fst (entropy n)) (snd (entropy n)) file.

(** [songUpload] *)
Definition songUpload : Multer.Options :=
  Multer.mkOptions storage_destination storage_name
    (Multer.mkLimits (100 * 1024 * 1024) 2)
    combinedFileFilter.

(** [profileImageUpload] *)
Definition profileImageUpload : Multer.Options :=
  Multer.mkOptions storage_destination storage_name
    (Multer.mkLimits (5 * 1024 * 1024) 1)
    imageFileFilter.

(** [uploadSongFiles] *)
Definition uploadSongFiles (req : Request) : Outcome :=
  match Multer.fields songUpload
          [Multer.mkField "audio" 1; Multer.mkField "coverImage" 1] req with
  | inl (Multer.MulterError code) =>
    let message :=
      match code with
      | Multer.LIMIT_FILE_SIZE =>
        "File too large. Audio files must be under 100MB, images under 5MB"
      | Multer.LIMIT_FILE_COUNT =>
        "Too many files. Maximum 1 audio file and 1 cover image allowed"
      | Multer.LIMIT_FIELD_COUNT => "Too many fields in request"
      | Multer.LIMIT_UNEXPECTED_FILE =>
        "Unexpected file field. Only " +:+ quoted "audio" +:+ " and "
        +:+ quoted "coverImage" +:+ " fields are allowed"
      | _ => "Upload error: " +:+ Multer.message code
      end in
    Respond (fail 400 "File upload failed" message)
  | inl (Multer.OtherError err) =>
    Respond (fail 400 "File upload failed" (err_message err))
  | inr req1 =>
    match files req1 with
    | None => Respond (fail 400 "Audio file required" "Please provide an audio file")
    | Some fs =>
      match fs !! "audio" with
      | None | Some [] =>
        Respond (fail 400 "Audio file required" "Please provide an audio file")
      | Some (audio0 :: _) =>
        let req2 :=
          set_audioFile req1
            (Some (mkFileWithUrl audio0 ("/uploads/audio/" +:+ filename audio0))) in
        let req3 :=
          match fs !! "coverImage" with
          | Some (cover0 :: _) =>
            set_coverImage req2
              (Some (mkFileWithUrl cover0 ("/uploads/images/" +:+ filename cover0)))
          | _ => req2
          end in
        Next req3
      end
    end
  end.

(** [uploadProfileImage] *)
Definition uploadProfileImage (req : Request) : Outcome :=
  match Multer.single profileImageUpload "avatar" req with
  | inl (Multer.MulterError code) =>
    let message :=
      match code with
      | Multer.LIMIT_FILE_SIZE => "Image too large. Maximum size is 5MB"
      | _ => "Upload error: " +:+ Multer.message code
      end in
    Respond (fail 400 "Image upload failed" message)
  | inl (Multer.OtherError err) =>
    Respond (fail 400 "Image upload failed" (err_message err))
  | inr req1 =>
    match file req1 with
    | Some f =>
      Next (set_uploadedImage req1
              (Some (mkFileWithUrl f ("/uploads/images/" +:+ filename f))))
    | None => Next req1
    end
  end.

End WithEntropy.

(** [cleanupFiles]: installs [req.cleanup]. *)
Definition cleanupFiles (req : Request) : Outcome := Next (set_cleanup req true).

End Upload.

(** ** [routes/songs.js]: upload and delete *)

Module SongRoutes.
Import Js Http Store SongModel.
Local Open Scope eff_scope.

(** [v || d] on an optional string. *)
Definition or_else (v : option string) (d : string) : string :=
  match v with
  | Some s => if String.eqb s "" then d else s
  | None => d
  end.

(** The descriptor copied from [req.audioFile] / [req.coverImage]. *)
Definition file_info (f : FileWithUrl) : FileInfo :=
  mkFileInfo (Http.filename (base f)) (originalname (base f)) (mimetype (base f))
             (Http.size (base f)) (Http.url f).

(** Reading a property of [undefined]. *)
Definition type_error : JsError :=
  mkError "TypeError" "Cannot read properties of undefined" [].

Definition set_coverImage (d : SongData) (c : option FileInfo) : SongData :=
  mkSongData (d_title d) (d_artist d) (d_album d) (d_genre d) (d_year d)
    (d_duration d) (d_lyrics d) (d_language d) (d_tags d) (d_uploadedBy d)
    (d_audioFile d) c (d_status d) (d_moderatedBy d) (d_moderatedAt d).

Definition set_moderation (d : SongData) (st : option Status)
    (by_ : option string) (at_ : option Z) : SongData :=
  mkSongData (d_title d) (d_artist d) (d_album d) (d_genre d) (d_year d)
    (d_duration d) (d_lyrics d) (d_language d) (d_tags d) (d_uploadedBy d)
    (d_audioFile d) (d_coverImage d) st by_ at_.

Section WithEnvironment.
Variable drv : Driver.
(** The global [parseInt]. *)
Variable parseInt : string -> float.

(** [POST /]: the object handed to [new Song]; [now] is [new Date()]. *)
Definition songData_of (now : Z) (req : Request) : result SongData :=
  match user req, Http.audioFile req with
  | Some u, Some audio =>
    let form := body req in
    let songData :=
      {| d_title := f_title form;
         d_artist := f_artist form;
         d_album := or_else (f_album form) "";
         d_genre := or_else (f_genre form) "";
         d_year := if truthy (f_year form)
                   then parseInt <$> f_year form else None;
         d_duration := if truthy (f_duration form)
                       then parseInt <$> f_duration form else None;
         d_lyrics := or_else (f_lyrics form) "";
         d_language := or_else (f_language form) "en";
         d_tags := default [] (f_tags form);
         d_uploadedBy := UserModel._id u;
         d_audioFile := file_info audio;
         d_coverImage := None;
         d_status := None;
         d_moderatedBy := None;
         d_moderatedAt := None |} in
    (* Add cover image if provided *)
    let songData1 :=
      match Http.coverImage req with
      | Some cover => set_coverImage songData (Some (file_info cover))
      | None => songData
      end in
    (* Auto-approve for admins, pending for contributors *)
    let songData2 :=
      if UserModel.Role_eqb (UserModel.role u) UserModel.admin
      then set_moderation songData1 (Some approved)
             (Some (UserModel._id u)) (Some now)
      else songData1 in
    Ok songData2
  | _, _ => Throw type_error
  end.

(** The handler of [POST /]; [newId] is the id Mongoose draws for the
    new document. *)
Definition create_song (now : Z) (newId : string) (req : Request)
  : Eff Db Response :=
  catch
    (songData <- lift_result (songData_of now req) ;;
     saved <- call (save drv) (new_Song newId songData) ;;
     let song := snd saved in
     uploader <- populate_uploadedBy drv song ;;
     ret (mkResponse 201 (SongBody "Song uploaded successfully" song uploader)))
    (fun error =>
       (* req.cleanup() only touches the disk *)
       if String.eqb (err_name error) "ValidationError"
       then ret (mkResponse 400
              (ErrorDetails "Validation failed" "Please check your song data"
                            (err_errors error)))
       else ret (fail 500 "Song upload failed"
              "An error occurred while uploading the song")).

(** The handler of [DELETE /:id]. *)
Definition delete_song (req : Request) : Eff Db Response :=
  catch
    (found <- Song_findById drv (params req !! "id") ;;
     match found with
     | None =>
       ret (fail 404 "Song not found" "The requested song could not be found")
     | Some song =>
       match user req with
       | None => throw type_error
       | Some u =>
         (* Check if user owns the song or is admin *)
         if negb (String.eqb (uploadedBy song) (UserModel._id u))
            && negb (UserModel.Role_eqb (UserModel.role u) UserModel.admin)
         then ret (fail 403 "Access denied" "You can only delete your own songs")
         else
           (* Mark as inactive instead of deleting *)
           call (save drv) (with_isActive song false) ;;;
           ret (mkResponse 200 (MessageBody "Song deleted successfully"))
       end
     end)
    (fun _ => ret (fail 500 "Song deletion failed"
              "An error occurred while deleting the song")).

End WithEnvironment.

End SongRoutes.

(** * Vocabulary of the statements *)

Module Spec.
Import Js Http Store.

(** The HTTP status a middleware answers with, if it answers. *)
Definition answered (o : Outcome) : option Z :=
  match o with
  | Respond res => Some (res_status res)
  | Next _ => None
  end.

(** The status answered by a run of a middleware over the store. *)
Definition answer (run : result Outcome * Db) : option Z :=
  match fst run with
  | Ok o => answered o
  | Throw _ => None
  end.

(** The two answers of [authenticate] that several branches share. *)
Definition unauthorized_no_token : Response :=
  fail 401 "Access denied"
    "No valid token provided. Please include Bearer token in Authorization header.".

Definition internal_error : Response :=
  fail 500 "Authentication failed" "An error occurred during authentication".

(** The rating statistics of a song: average and count. *)
Definition rating_stats (s : SongModel.Song) : float * float :=
  (SongModel.averageRating (SongModel.stats s),
   SongModel.ratingCount (SongModel.stats s)).

(** The moderation record of a song. *)
Definition moderation (s : SongModel.Song)
  : SongModel.Status * option string * option Z * string :=
  (SongModel.status s, SongModel.moderatedBy s, SongModel.moderatedAt s,
   SongModel.moderationNotes s).

End Spec.

(** * Sample data *)

Module Samples.
Import Js Http Store.

Definition alice : UserModel.User :=
  UserModel.mkUser "u-alice" "Alice" "alice@example.org" UserModel.contributor
    (UserModel.mkUserStats 1 0 0) true.

Definition bob : UserModel.User :=
  UserModel.mkUser "u-bob" "Bob" "bob@example.org" UserModel.contributor
    (UserModel.mkUserStats 0 0 0) true.

Definition root : UserModel.User :=
  UserModel.mkUser "u-root" "Root" "root@example.org" UserModel.admin
    (UserModel.mkUserStats 0 0 0) true.

Definition carol : UserModel.User :=
  UserModel.mkUser "u-carol" "Carol" "carol@example.org" UserModel.senior
    (UserModel.mkUserStats 0 0 0) false.

Definition tune : SongModel.Song :=
  SongModel.with_isNew
    (SongModel.new_Song "s-1"
       (SongModel.mkSongData (Some "Moon River") (Some "Alice") "" "" None None
          "" "en" [] "u-alice"
          (SongModel.mkFileInfo "moon-1-2.mp3" "moon.mp3" "audio/mpeg" 1048576
             "/uploads/audio/moon-1-2.mp3")
          None None None None))
    false.

Definition db0 : Db :=
  mkDb {[ "s-1" := tune ]}
       (<["u-alice" := alice]> (<["u-bob" := bob]> (<["u-root" := root]>
          {[ "u-carol" := carol ]}))).

(** A token service that knows three tokens. *)
Definition jwt0 (token secret : string) : result Auth.Payload :=
  if String.eqb token "alice-token" then Ok (Auth.mkPayload (Some "u-alice"))
  else if String.eqb token "carol-token" then Ok (Auth.mkPayload (Some "u-carol"))
  else if String.eqb token "ghost-token" then Ok (Auth.mkPayload (Some "u-ghost"))
  else if String.eqb token "old-token"
  then Throw (mkError "TokenExpiredError" "jwt expired" [])
  else if String.eqb token "early-token"
  then Throw (mkError "NotBeforeError" "jwt not active" [])
  else Throw (mkError "JsonWebTokenError" "jwt malformed" []).

Definition bearer (token : string) : Request :=
  mkRequest {[ "authorization" := "Bearer " +:+ token ]} ∅ empty_form None
    None None None None None None false.

(** A request of [u] on the route parameter [id]. *)
Definition on_id (u : option UserModel.User) (id : option string) : Request :=
  mkRequest ∅ (match id with Some i => {[ "id" := i ]} | None => ∅ end)
    empty_form None u None None None None None false.

Definition multipart (ps : list Part) : Request :=
  mkRequest ∅ ∅ empty_form (Some ps) None None None None None None false.

Definition entropy0 (n : nat) : Z * Z := (1700000000000 + Z.of_nat n, 123456789).

Definition MiB : Z := 1024 * 1024.

(** An upload form filled in by [u], with its audio file already stored. *)
Definition upload_by (u : UserModel.User) : Request :=
  mkRequest ∅ ∅
    (mkSongForm (Some "Blue Moon") (Some "Bob") None (Some "jazz") (Some "1961")
       None None None None)
    None (Some u) None None
    (Some (mkFileWithUrl
             (mkFile "audio" "blue.mp3" "audio/mpeg" 2048 "uploads/audio"
                "blue-1-2.mp3" "uploads/audio/blue-1-2.mp3")
             "/uploads/audio/blue-1-2.mp3"))
    None None true.

Definition parseInt0 (s : string) : float :=
  if String.eqb s "1961" then 1961%float else nan.

End Samples.

(** * Vocabulary for the upload pipeline *)

Module UploadSpec.
Import Http.

(** The part a stored file was made from. *)
Definition part_of (f : File) : Part :=
  mkPart (fieldname f) (originalname f) (mimetype f) (size f).

(** The file parts sent in the field [name]. *)
Definition sent_in (name : string) (ps : list Part) : list Part :=
  List.filter (fun p => String.eqb (p_fieldname p) name) ps.

End UploadSpec.

(** * Properties *)

Section FloatOrder.

Lemma SFcompare_antisym x y c :
  SFcompare x y = Some c -> SFcompare y x = Some (CompOpp c).
Proof.
  destruct x as [sx|sx| |sx mx ex], y as [sy|sy| |sy my ey]; simpl;
    try discriminate;
    try (intros [= <-]; try destruct sx; try destruct sy; reflexivity).
  intros [= <-]. f_equal.
  change (PosDef.Pos.compare_cont Eq mx my) with (Pos.compare mx my).
  change (PosDef.Pos.compare_cont Eq my mx) with (Pos.compare my mx).
  rewrite (Z.compare_antisym ex ey), (Pos.compare_antisym mx my).
  destruct sx, sy; simpl; try reflexivity;
    destruct (ex ?= ey)%Z; simpl; try reflexivity;
    destruct (mx ?= my)%positive; reflexivity.
Qed.

(** [x <= y] excludes [y < x], also for infinities and NaN. *)
Lemma leb_not_ltb (x y : float) :
  (x <=? y)%float = true -> (y <? x)%float = false.
Proof.
  rewrite leb_spec, ltb_spec. unfold SFleb, SFltb.
  destruct (SFcompare (Prim2SF x) (Prim2SF y)) as [c|] eqn:E; [|discriminate].
  rewrite (SFcompare_antisym _ _ _ E). destruct c; simpl; congruence.
Qed.

End FloatOrder.

(** ** Saving a document *)

Section Save.
Import Js Store SongModel.
Variable drv : Driver.

(** The pre-save hook only touches the users. *)
Lemma pre_save_songs (s : Song) (db : Db) :
  songs (pre_save drv s db) = songs db.
Proof.
  unfold pre_save. destruct (_ && _); [|reflexivity].
  destruct (drv (IncSongsUploaded _)); reflexivity.
Qed.

(** A document that is not new leaves the users alone. *)
Lemma pre_save_old (s : Song) (db : Db) :
  isNew s = false -> pre_save drv s db = db.
Proof. intros H. unfold pre_save. now rewrite H. Qed.

(** The three ways [save] can end. *)
Lemma save_cases (s : Song) (db : Db) :
  (exists e, drv (ValidateSong s) = Some e
             /\ save drv (s, db) = (Throw e, (s, db)))
  \/ (exists e, drv (WriteSong s) = Some e
                /\ save drv (s, db) = (Throw e, (s, pre_save drv s db)))
  \/ (drv (ValidateSong s) = None /\ drv (WriteSong s) = None
      /\ save drv (s, db) =
         (Ok (with_isNew s false),
          (with_isNew s false,
           mkDb (<[_id s := with_isNew s false]> (songs db))
                (users (pre_save drv s db))))).
Proof.
  unfold save.
  destruct (drv (ValidateSong s)) as [e|] eqn:Hv; [left; eauto|].
  destruct (drv (WriteSong s)) as [e|] eqn:Hw; [right; left; eauto|].
  right; right. simpl. now rewrite pre_save_songs.
Qed.

(** Whatever the store answers, the document in memory keeps every path
    but Mongoose's [isNew]. *)
Lemma save_document (s : Song) (db : Db) :
  fst (snd (save drv (s, db))) = s
  \/ fst (snd (save drv (s, db))) = with_isNew s false.
Proof.
  destruct (save_cases s db) as [(e & _ & ->) | [(e & _ & ->) | (_ & _ & ->)]];
    simpl; auto.
Qed.

(** A save that returns has written the document it returns. *)
Lemma save_returns (s : Song) (db : Db) (saved : Song) :
  fst (save drv (s, db)) = Ok saved ->
  saved = with_isNew s false
  /\ fst (snd (save drv (s, db))) = saved
  /\ songs (snd (snd (save drv (s, db)))) !! _id s = Some saved
  /\ forall j, j <> _id s ->
       songs (snd (snd (save drv (s, db)))) !! j = songs db !! j.
Proof.
  destruct (save_cases s db) as [(e & _ & ->) | [(e & _ & ->) | (_ & _ & ->)]];
    simpl; try discriminate.
  intros [= <-]. repeat split.
  - apply lookup_insert_eq.
  - intros j Hj. now apply lookup_insert_ne.
Qed.

(** A save only throws what the store threw. *)
Lemma save_throws (s : Song) (db : Db) (e : JsError) :
  fst (save drv (s, db)) = Throw e -> exists op, drv op = Some e.
Proof.
  destruct (save_cases s db) as [(e' & H & ->) | [(e' & H & ->) | (_ & _ & ->)]];
    simpl; try discriminate; intros [= <-]; eauto.
Qed.

(** With a store that carries out every operation, [save] returns. *)
Lemma save_healthy (s : Song) (db : Db) :
  (forall op, drv op = None) ->
  fst (save drv (s, db)) = Ok (with_isNew s false).
Proof.
  intros H.
  destruct (save_cases s db) as [(e & He & _) | [(e & He & _) | (_ & _ & ->)]];
    [rewrite H in He; discriminate .. | reflexivity].
Qed.

End Save.

(** ** Ratings: [addRating] *)

Section AddRating.
Import Js Store SongModel SongMethods Spec.

(** What [addRating] does when its guard lets the rating through. *)
Lemma addRating_in_range (drv : Driver) (r : float) (s : Song) (db : Db) :
  (r <? 1)%float = false -> (5 <? r)%float = false ->
  addRating drv r (s, db) =
  save drv
    (set_averageRating
       ((averageRating (stats s) * ratingCount (stats s) + r)
        / (ratingCount (stats s) + 1))%float
       (set_ratingCount (ratingCount (stats s) + 1)%float s), db).
Proof.
  intros H1 H5. unfold addRating. rewrite H1, H5. reflexivity.
Qed.

Lemma save_keeps_stats (drv : Driver) (s : Song) (db : Db) :
  stats (fst (snd (save drv (s, db)))) = stats s.
Proof. destruct (save_document drv s db) as [-> | ->]; reflexivity. Qed.

(** C6. For every track and every rating [r] with [1 <= r <= 5],
    [addRating r] sets [ratingCount] to its prior value plus one and
    [averageRating] to [(priorAverage * priorCount + r) / (priorCount + 1)]
    (in the arithmetic of JavaScript numbers); the document handed back is
    the stored one and carries these values, and the call returns when the
    store carries out its operations. In particular, on a track without
    ratings, [addRating 5] gives average 5 and count 1, and [addRating 3]
    after it gives average 4 and count 2. *)
Theorem addRating_running_mean :
  (forall (drv : Driver) (s : Song) (db : Db) (r : float),
      (1 <=? r)%float = true -> (r <=? 5)%float = true ->
      let after := addRating drv r (s, db) in
      ratingCount (stats (fst (snd after))) = (ratingCount (stats s) + 1)%float
      /\ averageRating (stats (fst (snd after))) =
         ((averageRating (stats s) * ratingCount (stats s) + r)
          / (ratingCount (stats s) + 1))%float
      /\ (forall saved, fst after = Ok saved ->
            stats saved = stats (fst (snd after))
            /\ songs (snd (snd after)) !! _id s = Some saved)
      /\ ((forall op, drv op = None) -> exists saved, fst after = Ok saved))
  /\
  (forall (drv1 drv2 : Driver) (s : Song) (db : Db),
      averageRating (stats s) = 0%float -> ratingCount (stats s) = 0%float ->
      let first := snd (addRating drv1 5 (s, db)) in
      let second := snd (addRating drv2 3 first) in
      rating_stats (fst first) = (5, 1)%float
      /\ rating_stats (fst second) = (4, 2)%float).
Proof.
  assert (General : forall drv s db r,
    (1 <=? r)%float = true -> (r <=? 5)%float = true ->
    addRating drv r (s, db) =
    save drv
      (set_averageRating
         ((averageRating (stats s) * ratingCount (stats s) + r)
          / (ratingCount (stats s) + 1))%float
         (set_ratingCount (ratingCount (stats s) + 1)%float s), db)).
  { intros drv s db r Hlo Hhi.
    apply addRating_in_range; now apply leb_not_ltb. }
  split.
  - intros drv s db r Hlo Hhi after. subst after.
    rewrite (General drv s db r Hlo Hhi).
    set (doc := set_averageRating _ _).
    rewrite (save_keeps_stats drv doc db).
    split; [reflexivity|]. split; [reflexivity|]. split.
    + intros saved Hsaved.
      destruct (save_returns drv doc db saved Hsaved) as (-> & _ & Hstored & _).
      split; [reflexivity | exact Hstored].
    + intros Hok. eexists. now apply save_healthy.
  - intros drv1 drv2 s db Havg Hcnt first second.
    assert (Hfirst : rating_stats (fst first) = (5, 1)%float).
    { subst first. rewrite (General drv1 s db 5%float eq_refl eq_refl).
      unfold rating_stats. rewrite save_keeps_stats. simpl.
      rewrite Havg, Hcnt. reflexivity. }
    split; [exact Hfirst|].
    subst second. destruct first as [s1 db1]. simpl in Hfirst.
    rewrite (General drv2 s1 db1 3%float eq_refl eq_refl).
    unfold rating_stats in *. rewrite save_keeps_stats. simpl.
    injection Hfirst as -> ->. reflexivity.
Qed.

(** A rating of 4 on the sample track, then 5 and 3 on it. *)
Lemma addRating_running_mean_witness :
  rating_stats (fst (snd (addRating healthy 4 (Samples.tune, Samples.db0))))
  = (4, 1)%float
  /\ rating_stats
       (fst (snd (addRating healthy 3
                    (snd (addRating healthy 5 (Samples.tune, Samples.db0))))))
     = (4, 2)%float.
Proof.
  split.
  - destruct (proj1 addRating_running_mean healthy Samples.tune Samples.db0
                4%float eq_refl eq_refl) as (Hcount & Havg & _).
    unfold rating_stats. rewrite Hcount, Havg. reflexivity.
  - exact (proj2 (proj2 addRating_running_mean healthy healthy Samples.tune
                    Samples.db0 eq_refl eq_refl)).
Defined.

(** C10. For every track and every rating [r] with [r < 1] or [r > 5],
    [addRating r] fails with an error before any mutation: the document
    (so its [averageRating] and [ratingCount]) and the store are as they
    were. *)
Theorem addRating_out_of_range (drv : Driver) (s : Song) (db : Db) (r : float) :
  (r <? 1)%float = true \/ (5 <? r)%float = true ->
  exists e,
    addRating drv r (s, db) = (Throw e, (s, db))
    /\ err_message e = "Rating must be between 1 and 5"
    /\ rating_stats (fst (snd (addRating drv r (s, db)))) = rating_stats s.
Proof.
  intros Hout. exists (mkError "Error" "Rating must be between 1 and 5" []).
  assert (Hguard : (r <? 1)%float || (5 <? r)%float = true).
  { destruct Hout as [-> | ->]; [reflexivity | apply orb_true_r]. }
  unfold addRating. rewrite Hguard. repeat split; reflexivity.
Qed.

(** A rating of 6 on the sample track. *)
Lemma addRating_out_of_range_witness :
  exists e,
    addRating healthy 6 (Samples.tune, Samples.db0)
    = (Throw e, (Samples.tune, Samples.db0))
    /\ err_message e = "Rating must be between 1 and 5"
    /\ rating_stats (fst (snd (addRating healthy 6 (Samples.tune, Samples.db0))))
       = rating_stats Samples.tune.
Proof.
  apply (addRating_out_of_range healthy Samples.tune Samples.db0 6%float).
  right. reflexivity.
Defined.

End AddRating.

(** ** Moderation: [approve] and [reject] *)

Section Moderation.
Import Js Store SongModel SongMethods Spec.

Lemma approve_is_overwrite (drv : Driver) m notes now (s : Song) (db : Db) :
  approve drv m notes now (s, db)
  = save drv (with_moderation s approved notes (Some m) (Some now), db).
Proof. reflexivity. Qed.

Lemma reject_is_overwrite (drv : Driver) m notes now (s : Song) (db : Db) :
  reject drv m notes now (s, db)
  = save drv (with_moderation s rejected notes (Some m) (Some now), db).
Proof. reflexivity. Qed.

Lemma save_keeps_moderation (drv : Driver) (s : Song) (db : Db) :
  moderation (fst (snd (save drv (s, db)))) = moderation s.
Proof. destruct (save_document drv s db) as [-> | ->]; reflexivity. Qed.

(** The effect shared by the two transitions, [st] being the target. *)
Lemma overwrite_spec (drv : Driver) (st : Status) m notes now (s : Song) (db : Db) :
  let after := save drv (with_moderation s st notes (Some m) (Some now), db) in
  moderation (fst (snd after)) = (st, Some m, Some now, notes)
  /\ (forall saved, fst after = Ok saved ->
        moderation saved = (st, Some m, Some now, notes)
        /\ songs (snd (snd after)) !! _id s = Some saved)
  /\ (forall e, fst after = Throw e -> exists op, drv op = Some e)
  /\ ((forall op, drv op = None) -> exists saved, fst after = Ok saved).
Proof.
  intros after. subst after. set (doc := with_moderation _ _ _ _ _).
  split; [now rewrite save_keeps_moderation|]. split; [|split].
  - intros saved Hsaved.
    destruct (save_returns drv doc db saved Hsaved) as (-> & _ & Hstored & _).
    split; [reflexivity | exact Hstored].
  - intros e. apply save_throws.
  - intros Hok. eexists. now apply save_healthy.
Qed.

(** C9. For every track, whatever its moderation state, [approve] sets the
    status to approved and overwrites moderator, timestamp and notes, and
    [reject] does the same with status rejected: no guard of theirs can
    refuse (an error is the store's), and the stored document carries the
    new record. In particular a second [approve] (or [reject]) leaves the
    status and installs the moderator, timestamp and notes of the second
    call. *)
Theorem approve_reject_overwrite :
  (forall (drv : Driver) (s : Song) (db : Db) m notes now,
      let after := approve drv m notes now (s, db) in
      moderation (fst (snd after)) = (approved, Some m, Some now, notes)
      /\ (forall saved, fst after = Ok saved ->
            moderation saved = (approved, Some m, Some now, notes)
            /\ songs (snd (snd after)) !! _id s = Some saved)
      /\ (forall e, fst after = Throw e -> exists op, drv op = Some e)
      /\ ((forall op, drv op = None) -> exists saved, fst after = Ok saved))
  /\
  (forall (drv : Driver) (s : Song) (db : Db) m notes now,
      let after := reject drv m notes now (s, db) in
      moderation (fst (snd after)) = (rejected, Some m, Some now, notes)
      /\ (forall saved, fst after = Ok saved ->
            moderation saved = (rejected, Some m, Some now, notes)
            /\ songs (snd (snd after)) !! _id s = Some saved)
      /\ (forall e, fst after = Throw e -> exists op, drv op = Some e)
      /\ ((forall op, drv op = None) -> exists saved, fst after = Ok saved))
  /\
  (forall (drv1 drv2 : Driver) (s : Song) (db : Db) m1 notes1 now1 m2 notes2 now2,
      let first := snd (approve drv1 m1 notes1 now1 (s, db)) in
      let second := snd (approve drv2 m2 notes2 now2 first) in
      moderation (fst first) = (approved, Some m1, Some now1, notes1)
      /\ moderation (fst second) = (approved, Some m2, Some now2, notes2))
  /\
  (forall (drv1 drv2 : Driver) (s : Song) (db : Db) m1 notes1 now1 m2 notes2 now2,
      let first := snd (reject drv1 m1 notes1 now1 (s, db)) in
      let second := snd (reject drv2 m2 notes2 now2 first) in
      moderation (fst first) = (rejected, Some m1, Some now1, notes1)
      /\ moderation (fst second) = (rejected, Some m2, Some now2, notes2)).
Proof.
  split; [|split; [|split]].
  - intros drv s db m notes now. rewrite approve_is_overwrite.
    apply overwrite_spec.
  - intros drv s db m notes now. rewrite reject_is_overwrite.
    apply overwrite_spec.
  - intros drv1 drv2 s db m1 notes1 now1 m2 notes2 now2 first second.
    subst second first. rewrite approve_is_overwrite.
    split; [now rewrite save_keeps_moderation|].
    destruct (save drv1 _) as [res [s1 db1]]. simpl.
    rewrite approve_is_overwrite. now rewrite save_keeps_moderation.
  - intros drv1 drv2 s db m1 notes1 now1 m2 notes2 now2 first second.
    subst second first. rewrite reject_is_overwrite.
    split; [now rewrite save_keeps_moderation|].
    destruct (save drv1 _) as [res [s1 db1]]. simpl.
    rewrite reject_is_overwrite. now rewrite save_keeps_moderation.
Qed.

(** Two approvals of the sample track, by different moderators. *)
Lemma approve_reject_overwrite_witness :
  exists saved,
    fst (approve healthy "u-root" "fine" 200
           (snd (approve healthy "u-bob" "ok" 100 (Samples.tune, Samples.db0))))
    = Ok saved
    /\ moderation saved = (approved, Some "u-root", Some 200, "fine").
Proof.
  destruct (proj1 approve_reject_overwrite healthy
              (fst (snd (approve healthy "u-bob" "ok" 100
                           (Samples.tune, Samples.db0))))
              (snd (snd (approve healthy "u-bob" "ok" 100
                           (Samples.tune, Samples.db0))))
              "u-root" "fine" 200) as (_ & Hsaved & _ & Hreturns).
  destruct (Hreturns (fun op => eq_refl)) as [saved Hres].
  exists saved. split.
  - rewrite <- Hres. reflexivity.
  - exact (proj1 (Hsaved saved Hres)).
Defined.

End Moderation.

(** ** Authentication: [authenticate] *)

Section Authenticate.
Import Js Http Store Auth Spec.

Variable jwt_verify : string -> string -> result Payload.
Variable JWT_SECRET : option string.
Variable drv : Driver.

(** The token is what follows the prefix. *)
Lemma bearer_token (token : string) :
  startsWith ("Bearer " +:+ token) "Bearer " = true
  /\ replace "Bearer " "" ("Bearer " +:+ token) = token.
Proof. destruct token; split; reflexivity. Qed.

(** With a non-empty bearer token the middleware is its inner [try] under
    the two handlers. *)
Lemma authenticate_bearer (req : Request) (token : string) :
  header req "Authorization" = Some ("Bearer " +:+ token) ->
  token <> "" ->
  authenticate jwt_verify JWT_SECRET drv req
  = catch (catch (resolve_user jwt_verify JWT_SECRET drv req token) on_jwtError)
          (fun _ => ret (Respond internal_error)).
Proof.
  intros Hh Hne. unfold authenticate. rewrite Hh.
  destruct (bearer_token token) as [-> ->].
  apply String.eqb_neq in Hne. rewrite Hne. reflexivity.
Qed.


(** Any outcome of the middleware other than proceeding is a 401 or a
    500, and proceeding attaches an active user of the store. *)
Lemma authenticate_statuses (req : Request) (db : Db) :
  exists o, authenticate jwt_verify JWT_SECRET drv req db = (Ok o, db)
    /\ (answered o = Some 401 \/ answered o = Some 500
        \/ exists id u, o = Next (set_user req (Some u))
             /\ users db !! id = Some u /\ UserModel.isActive u = true).
Proof.
  unfold authenticate, catch.
  destruct (header req "Authorization") as [h|]; [|eexists; split; eauto].
  destruct (negb (truthy (Some h)) || negb (startsWith h "Bearer "));
    [eexists; split; eauto|].
  destruct (String.eqb (replace "Bearer " "" h) ""); [eexists; split; eauto|].
  unfold resolve_user, bind, lift_result, User_findById, on_jwtError.
  destruct (jwt_verify _ _) as [p|e].
  - destruct (drv (FindUser (userId p))) as [e|].
    + destruct (String.eqb (err_name e) "TokenExpiredError");
        [eexists; split; eauto|].
      destruct (String.eqb (err_name e) "JsonWebTokenError");
        eexists; split; eauto.
    + destruct (userId p) as [id|]; [|eexists; split; eauto].
      destruct (users db !! id) as [u|] eqn:Hu; [|eexists; split; eauto].
      destruct (UserModel.isActive u) eqn:Ha; simpl;
        eexists; split; eauto 10.
  - destruct (String.eqb (err_name e) "TokenExpiredError");
      [eexists; split; eauto|].
    destruct (String.eqb (err_name e) "JsonWebTokenError");
      eexists; split; eauto.
Qed.

End Authenticate.


(** ** Authorization: [requireOwnershipOrAdmin] *)

Section Ownership.
Import Js Http Auth Spec.

Lemma Role_eqb_eq (a b : UserModel.Role) :
  UserModel.Role_eqb a b = true <-> a = b.
Proof. destruct a, b; simpl; split; congruence. Qed.

Lemma Role_eqb_neq (a b : UserModel.Role) :
  UserModel.Role_eqb a b = false <-> a <> b.
Proof. destruct a, b; simpl; split; congruence. Qed.

(** C2, as the specification words it, fails: a contributor on a route
    without an [id] parameter does not own the (absent) resource, yet is
    answered 400, not 403. *)
Lemma ownership_without_resource_id :
  ~ (forall (path : string) (req : Request) (u : UserModel.User),
        user req = Some u ->
        UserModel.role u <> UserModel.admin ->
        (params req !! "id" = Some (UserModel._id u) ->
         requireOwnershipOrAdmin path req = Next req)
        /\ (params req !! "id" <> Some (UserModel._id u) ->
            answered (requireOwnershipOrAdmin path req) = Some 403)).
Proof.
  intros Claim.
  destruct (Claim "uploadedBy" (Samples.on_id (Some Samples.alice) None)
              Samples.alice eq_refl ltac:(discriminate)) as [_ H403].
  specialize (H403 ltac:(discriminate)).
  vm_compute in H403. discriminate.
Qed.

(** C2, amended. With no attached identity the middleware answers 401. An
    admin proceeds. Any other identity is answered 400 when the route
    carries no resource id; when it carries one, the request proceeds
    exactly when the identity's own id equals it, and is answered 403
    otherwise. *)
Theorem ownership_or_admin (path : string) (req : Request) :
  let out := requireOwnershipOrAdmin path req in
  (user req = None ->
   out = Respond (fail 401 "Authentication required"
                    "You must be logged in to access this resource"))
  /\ (forall u, user req = Some u ->
        (UserModel.role u = UserModel.admin -> out = Next req)
        /\ (UserModel.role u <> UserModel.admin ->
            (truthy (params req !! "id") = false ->
             out = Respond (fail 400 "Resource ID required"
                              "Resource ID must be provided"))
            /\ (forall id, params req !! "id" = Some id -> id <> "" ->
                  (id = UserModel._id u -> out = Next req)
                  /\ (id <> UserModel._id u ->
                      out = Respond (fail 403 "Access denied"
                                       "You can only access your own resources"))
                  /\ (out = Next req <-> id = UserModel._id u)))).
Proof.
  intros out. subst out. unfold requireOwnershipOrAdmin. split.
  - intros ->. reflexivity.
  - intros u ->. split.
    + intros Hadmin. apply Role_eqb_eq in Hadmin. now rewrite Hadmin.
    + intros Hrole. apply Role_eqb_neq in Hrole. rewrite Hrole. split.
      * intros ->. reflexivity.
      * intros id Hid Hne. rewrite Hid. simpl.
        apply String.eqb_neq in Hne. rewrite Hne. simpl.
        destruct (bool_decide_reflect (Some (UserModel._id u) = Some id))
          as [Heq | Hneq].
        -- injection Heq as <-. repeat split; congruence.
        -- assert (id <> UserModel._id u) by congruence.
           split; [congruence|]. split; [reflexivity|].
           split; [discriminate | congruence].
Qed.

(** The sample contributor on her own id, on another id, and the sample
    admin on any id. *)
Lemma ownership_or_admin_witness :
  requireOwnershipOrAdmin "uploadedBy"
    (Samples.on_id (Some Samples.alice) (Some "u-alice"))
  = Next (Samples.on_id (Some Samples.alice) (Some "u-alice"))
  /\ answered (requireOwnershipOrAdmin "uploadedBy"
                 (Samples.on_id (Some Samples.alice) (Some "u-bob"))) = Some 403
  /\ requireOwnershipOrAdmin "uploadedBy"
       (Samples.on_id (Some Samples.root) (Some "u-bob"))
     = Next (Samples.on_id (Some Samples.root) (Some "u-bob")).
Proof.
  split; [|split].
  - destruct (ownership_or_admin "uploadedBy"
                (Samples.on_id (Some Samples.alice) (Some "u-alice")))
      as (_ & H).
    destruct (H Samples.alice eq_refl) as (_ & Hother).
    destruct (Hother ltac:(discriminate)) as (_ & Hid).
    destruct (Hid "u-alice" eq_refl ltac:(discriminate)) as (Hown & _).
    exact (Hown eq_refl).
  - destruct (ownership_or_admin "uploadedBy"
                (Samples.on_id (Some Samples.alice) (Some "u-bob")))
      as (_ & H).
    destruct (H Samples.alice eq_refl) as (_ & Hother).
    destruct (Hother ltac:(discriminate)) as (_ & Hid).
    destruct (Hid "u-bob" eq_refl ltac:(discriminate)) as (_ & Hforeign & _).
    rewrite (Hforeign ltac:(discriminate)). reflexivity.
  - destruct (ownership_or_admin "uploadedBy"
                (Samples.on_id (Some Samples.root) (Some "u-bob")))
      as (_ & H).
    destruct (H Samples.root eq_refl) as (Hadmin & _).
    exact (Hadmin eq_refl).
Defined.

End Ownership.

(** ** Upload pipeline: the file filters *)

Section FileFilters.
Import Js Http Upload.

Lemma includes_In (l : list string) (x : string) :
  includes l x = true <-> In x l.
Proof.
  unfold includes. rewrite existsb_exists. split.
  - intros (y & Hy & Heq). apply String.eqb_eq in Heq. now subst.
  - intros Hx. exists x. split; [exact Hx | apply String.eqb_refl].
Qed.

(** A filter either keeps the file or raises its format error. *)
Lemma filter_cases (mimes exts : list string) (msg : string) (file : Part) :
  let verdict :=
    if includes mimes (p_mimetype file)
       || includes exts (toLowerCase (Path.extname (p_originalname file)))
    then Ok true else Throw (mkError "Error" msg []) in
  (verdict = Ok true <->
   In (p_mimetype file) mimes
   \/ In (toLowerCase (Path.extname (p_originalname file))) exts)
  /\ (verdict = Ok true \/ verdict = Throw (mkError "Error" msg [])).
Proof.
  intros verdict. subst verdict.
  rewrite <- !includes_In.
  destruct (includes mimes _), (includes exts _); simpl;
    (split; [split; [auto | intros _; reflexivity] | auto])
    || (split; [split; [discriminate | intros [?|?]; discriminate] | auto]).
Qed.

(** C7. The audio filter accepts a file if and only if its declared MIME
    type is in the audio MIME list or its lower-cased extension is one of
    .mp3 .wav .aac .ogg .webm .mp4 .m4a .flac; the image filter accepts a
    file if and only if its MIME type is in the image MIME list or its
    lower-cased extension is one of .jpg .jpeg .png .gif .webp. A file that
    is not accepted is refused with the format error. So a file whose
    extension and MIME type disagree is accepted as soon as one of the two
    is listed; and the combined filter of the song upload applies the
    audio filter to the field [audio] and the image filter to the field
    [coverImage]. *)
Theorem file_filter_or_policy (file : Part) :
  let ext := toLowerCase (Path.extname (p_originalname file)) in
  (audioFileFilter file = Ok true <->
   In (p_mimetype file)
      [ "audio/mpeg"; "audio/mp3"; "audio/wav"; "audio/wave"; "audio/x-wav";
        "audio/aac"; "audio/ogg"; "audio/webm"; "audio/mp4"; "audio/m4a";
        "audio/x-m4a"; "audio/flac" ]
   \/ In ext [ ".mp3"; ".wav"; ".aac"; ".ogg"; ".webm"; ".mp4"; ".m4a"; ".flac" ])
  /\ (imageFileFilter file = Ok true <->
      In (p_mimetype file)
         [ "image/jpeg"; "image/jpg"; "image/png"; "image/gif"; "image/webp" ]
      \/ In ext [ ".jpg"; ".jpeg"; ".png"; ".gif"; ".webp" ])
  /\ (audioFileFilter file <> Ok true -> exists e, audioFileFilter file = Throw e)
  /\ (imageFileFilter file <> Ok true -> exists e, imageFileFilter file = Throw e)
  /\ (p_fieldname file = "audio" -> combinedFileFilter file = audioFileFilter file)
  /\ (p_fieldname file = "coverImage" ->
      combinedFileFilter file = imageFileFilter file).
Proof.
  intros ext. subst ext.
  pose proof (filter_cases audio_allowedMimes audio_allowedExtensions
                ("Invalid audio format. Allowed formats: "
                 +:+ String.concat ", " audio_allowedExtensions) file)
    as [Haudio Haudio'].
  pose proof (filter_cases image_allowedMimes image_allowedExtensions
                ("Invalid image format. Allowed formats: "
                 +:+ String.concat ", " image_allowedExtensions) file)
    as [Himage Himage'].
  split; [exact Haudio|]. split; [exact Himage|].
  split; [|split; [|split]].
  - intros Hno. destruct Haudio' as [H | H]; [contradiction | eauto].
  - intros Hno. destruct Himage' as [H | H]; [contradiction | eauto].
  - intros Hf. unfold combinedFileFilter. now rewrite Hf.
  - intros Hf. unfold combinedFileFilter. now rewrite Hf.
Qed.

(** An upper-case extension under a generic MIME type, an image MIME type
    on a file without a known extension, and a text file. *)
Lemma file_filter_or_policy_witness :
  audioFileFilter (mkPart "audio" "TRACK.MP3" "application/octet-stream" 10)
  = Ok true
  /\ imageFileFilter (mkPart "coverImage" "scan.bin" "image/png" 10) = Ok true
  /\ exists e, audioFileFilter (mkPart "audio" "notes.txt" "text/plain" 10)
               = Throw e.
Proof.
  split; [|split].
  - apply (proj1 (file_filter_or_policy
                    (mkPart "audio" "TRACK.MP3" "application/octet-stream" 10))).
    right. left. reflexivity.
  - apply (proj1 (proj2 (file_filter_or_policy
                           (mkPart "coverImage" "scan.bin" "image/png" 10)))).
    left. right. right. left. reflexivity.
  - apply (proj1 (proj2 (proj2 (file_filter_or_policy
                                  (mkPart "audio" "notes.txt" "text/plain" 10))))).
    vm_compute. discriminate.
Defined.

End FileFilters.

(** ** Upload pipeline: destination and size limits *)

Section UploadStorage.
Import Js Http Upload Spec.

(** C5, on the code: the destination depends on the field name alone;
    [audio] goes to the audio directory and [coverImage] to the image
    directory, but [avatar] falls through to the temp directory, while
    [uploadProfileImage] publishes the stored avatar under the image
    directory. *)
Theorem avatar_destination_is_temp (originalname mimetype : string) (size : Z) :
  storage_destination (mkPart "audio" originalname mimetype size) = "uploads/audio"
  /\ storage_destination (mkPart "coverImage" originalname mimetype size)
     = "uploads/images"
  /\ storage_destination (mkPart "avatar" originalname mimetype size)
     = "uploads/temp"
  /\ match uploadProfileImage Samples.entropy0
             (Samples.multipart [mkPart "avatar" "me.png" "image/png" 1000]) with
     | Next req =>
       (Http.path ∘ base) <$> uploadedImage req
       = Some "uploads/temp/me-1700000000000-123456789.png"
       /\ Http.url <$> uploadedImage req
          = Some "/uploads/images/me-1700000000000-123456789.png"
     | Respond _ => False
     end.
Proof. repeat split. Qed.

(** Every field name other than [audio] and [coverImage] is stored in the
    temp directory. *)
Lemma destination_otherwise (file : Part) :
  p_fieldname file <> "audio" -> p_fieldname file <> "coverImage" ->
  storage_destination file = "uploads/temp".
Proof.
  intros Ha Hc. unfold storage_destination.
  apply String.eqb_neq in Ha, Hc. now rewrite Ha, Hc.
Qed.

(** C4, on the code: in the song upload a cover image is held to the
    100 MiB limit of the configuration, not to 5 MiB: next to a 1 MiB
    audio file, a cover image of [size] bytes is refused (400) exactly when
    it exceeds 100 MiB, so one of 6 MiB is accepted; the profile image
    upload does refuse 6 MiB. *)
Theorem cover_image_limit_is_audio_limit (size : Z) :
  answered
    (uploadSongFiles Samples.entropy0
       (Samples.multipart
          [ mkPart "audio" "a.mp3" "audio/mpeg" Samples.MiB;
            mkPart "coverImage" "c.png" "image/png" size ]))
  = (if 100 * 1024 * 1024 <? size then Some 400 else None)
  /\ match uploadSongFiles Samples.entropy0
             (Samples.multipart
                [ mkPart "audio" "a.mp3" "audio/mpeg" Samples.MiB;
                  mkPart "coverImage" "c.png" "image/png" (6 * Samples.MiB) ]) with
     | Next req => (Http.size ∘ base) <$> Http.coverImage req = Some 6291456
     | Respond _ => False
     end
  /\ uploadProfileImage Samples.entropy0
       (Samples.multipart [mkPart "avatar" "me.png" "image/png" (6 * Samples.MiB)])
     = Respond (fail 400 "Image upload failed" "Image too large. Maximum size is 5MB").
Proof.
  split; [|split; reflexivity].
  unfold uploadSongFiles, Multer.fields, Samples.multipart.
  cbn [parts]. cbn [Multer.receive]. cbn.
  destruct (100 * 1024 * 1024 <? size); reflexivity.
Qed.

End UploadStorage.

(** ** Song routes: upload and delete *)

Section Routes.
Import Js Http Store SongModel SongRoutes Spec.

Variable drv : Driver.
Variable parseInt : string -> float.

(** The moderation paths of the object built by the upload route. *)
Lemma songData_of_moderation (now : Z) (req : Request) (d : SongData)
    (u : UserModel.User) :
  user req = Some u ->
  songData_of parseInt now req = Ok d ->
  d_uploadedBy d = UserModel._id u
  /\ (UserModel.role u = UserModel.admin ->
      d_status d = Some approved
      /\ d_moderatedBy d = Some (UserModel._id u)
      /\ d_moderatedAt d = Some now)
  /\ (UserModel.role u <> UserModel.admin ->
      d_status d = None /\ d_moderatedBy d = None /\ d_moderatedAt d = None).
Proof.
  intros Hu. unfold songData_of. rewrite Hu.
  destruct (Http.audioFile req) as [audio|]; [|discriminate].
  intros [= <-].
  destruct (UserModel.Role_eqb (UserModel.role u) UserModel.admin) eqn:Hrole.
  - apply Role_eqb_eq in Hrole.
    destruct (Http.coverImage req); simpl; repeat split; congruence.
  - apply Role_eqb_neq in Hrole.
    destruct (Http.coverImage req); simpl; repeat split; congruence.
Qed.

(** An upload answered 201 has built, saved and populated the song. *)
Lemma create_song_created (now : Z) (newId : string) (req : Request)
    (db db' : Db) (msg : string) (song : Song) (uploader : option (string * string)) :
  create_song drv parseInt now newId req db
  = (Ok (mkResponse 201 (SongBody msg song uploader)), db') ->
  exists d,
    songData_of parseInt now req = Ok d
    /\ song = with_isNew (new_Song newId d) false
    /\ songs db' !! newId = Some song.
Proof.
  unfold create_song, catch, bind, lift_result.
  destruct (songData_of parseInt now req) as [d|e].
  - unfold call.
    destruct (save_cases drv (new_Song newId d) db)
      as [(e & _ & ->) | [(e & _ & ->) | (_ & _ & ->)]].
    + destruct (String.eqb (err_name e) "ValidationError"); discriminate.
    + destruct (String.eqb (err_name e) "ValidationError"); discriminate.
    + unfold populate_uploadedBy. cbn [snd].
      destruct (drv (PopulateUploader _)) as [e|].
      * destruct (String.eqb (err_name e) "ValidationError"); discriminate.
      * intros [= _ <- _ <-]. exists d. repeat split.
        apply lookup_insert_eq.
  - destruct (String.eqb (err_name e) "ValidationError"); discriminate.
Qed.

(** C3. For every song created through the upload route (the handler
    answers 201 with it): if the uploader's role is admin the track is
    created approved, with the uploader as moderator and the time of the
    request as moderation timestamp; for every other uploader it is
    created pending. The created track is the one stored under its id,
    owned by the uploader. *)
Theorem upload_status_by_role (now : Z) (newId : string) (req : Request)
    (db db' : Db) (u : UserModel.User) (msg : string) (song : Song)
    (uploader : option (string * string)) :
  user req = Some u ->
  create_song drv parseInt now newId req db
  = (Ok (mkResponse 201 (SongBody msg song uploader)), db') ->
  (UserModel.role u = UserModel.admin ->
   status song = approved
   /\ moderatedBy song = Some (UserModel._id u)
   /\ moderatedAt song = Some now)
  /\ (UserModel.role u <> UserModel.admin -> status song = pending)
  /\ uploadedBy song = UserModel._id u
  /\ songs db' !! newId = Some song.
Proof.
  intros Hu Hrun.
  destruct (create_song_created _ _ _ _ _ _ _ _ Hrun) as (d & Hd & -> & Hstored).
  destruct (songData_of_moderation now req d u Hu Hd) as (Hby & Hadmin & Hother).
  split; [|split; [|split]].
  - intros Hrole. destruct (Hadmin Hrole) as (Hs & Hm & Ht).
    simpl. now rewrite Hs, Hm, Ht.
  - intros Hrole. destruct (Hother Hrole) as (Hs & _).
    simpl. now rewrite Hs.
  - exact Hby.
  - exact Hstored.
Qed.

(** With a store that carries out every operation, an authenticated
    upload with its audio file is answered 201. *)
Lemma create_song_succeeds (now : Z) (newId : string) (req : Request) (db : Db)
    (u : UserModel.User) (audio : FileWithUrl) :
  (forall op, drv op = None) ->
  user req = Some u -> Http.audioFile req = Some audio ->
  exists song uploader db',
    create_song drv parseInt now newId req db
    = (Ok (mkResponse 201 (SongBody "Song uploaded successfully" song uploader)),
       db').
Proof.
  intros Hok Hu Ha. unfold create_song, catch, bind, lift_result, songData_of.
  rewrite Hu, Ha. unfold call.
  match goal with
  | |- context [save drv (?doc, db)] =>
    destruct (save_cases drv doc db)
      as [(e & He & _) | [(e & He & _) | (_ & _ & ->)]]
  end; try (rewrite Hok in He; discriminate).
  unfold populate_uploadedBy. cbn [snd]. rewrite Hok. eauto.
Qed.


End Routes.

(** The sample admin and a sample contributor upload the same form. *)
Lemma upload_status_by_role_witness :
  (exists msg song uploader db',
      SongRoutes.create_song Store.healthy Samples.parseInt0 500 "s-2"
        (Samples.upload_by Samples.root) Samples.db0
      = (Js.Ok (Http.mkResponse 201 (Http.SongBody msg song uploader)), db')
      /\ SongModel.status song = SongModel.approved
      /\ SongModel.moderatedBy song = Some "u-root"
      /\ SongModel.moderatedAt song = Some 500)
  /\ (exists msg song uploader db',
         SongRoutes.create_song Store.healthy Samples.parseInt0 500 "s-2"
           (Samples.upload_by Samples.bob) Samples.db0
         = (Js.Ok (Http.mkResponse 201 (Http.SongBody msg song uploader)), db')
         /\ SongModel.status song = SongModel.pending).
Proof.
  split.
  - eexists _, _, _, _.
    match goal with
    | |- ?run = ?rhs /\ _ =>
      assert (E : run = rhs) by (vm_compute; reflexivity)
    end.
    split; [exact E|].
    exact (proj1 (upload_status_by_role Store.healthy Samples.parseInt0 500 "s-2"
                    (Samples.upload_by Samples.root) Samples.db0 _ Samples.root
                    _ _ _ eq_refl E) eq_refl).
  - eexists _, _, _, _.
    match goal with
    | |- ?run = ?rhs /\ _ =>
      assert (E : run = rhs) by (vm_compute; reflexivity)
    end.
    split; [exact E|].
    refine (proj1 (proj2 (upload_status_by_role Store.healthy Samples.parseInt0
                            500 "s-2" (Samples.upload_by Samples.bob) Samples.db0
                            _ Samples.bob _ _ _ eq_refl E)) _).
    discriminate.
Defined.


(** * Further properties *)

(** ** What Multer lets through *)

Section Receive.
Import Js Http Multer UploadSpec.

Variable o : Options.
(** The filters of this application keep a file or raise an error; none
    skips a file silently. *)
Hypothesis no_skip : forall p, fileFilter o p <> Ok false.

(** A run over the parts that ends well has stored every part, in order,
    and every part was let through by each check. *)
Lemma receive_stored (ps : list Part) (filesLeft : gmap string Z) (seen : Z)
    (acc fs : list File) :
  receive o ps filesLeft seen acc = inr fs ->
  exists stored,
    fs = (acc ++ stored)%list
    /\ Forall2 (fun p f => exists n, f = store o n p) ps stored
    /\ Forall (fun p => fileFilter o p = Ok true
                        /\ p_size p <= fileSize (limits o)
                        /\ 0 < default 0 (filesLeft !! p_fieldname p)) ps.
Proof.
  revert filesLeft seen acc.
  induction ps as [|p rest IH]; intros filesLeft seen acc; cbn [receive].
  - intros [= <-]. exists []. rewrite app_nil_r. repeat constructor.
  - destruct (seen =? files (limits o)); [discriminate|].
    destruct (default 0 (filesLeft !! p_fieldname p) <=? 0) eqn:Hleft;
      [discriminate|].
    apply Z.leb_gt in Hleft.
    destruct (fileFilter o p) as [[|]|e] eqn:Hfilter; try discriminate.
    + destruct (fileSize (limits o) <? p_size p) eqn:Hsize; [discriminate|].
      apply Z.ltb_ge in Hsize.
      intros Hrest. destruct (IH _ _ _ Hrest) as (stored & -> & Hst & Hall).
      exists (store o (List.length acc) p :: stored). split.
      { now rewrite <- app_assoc. }
      split; [constructor; eauto|].
      constructor; [auto|].
      eapply Forall_impl; [exact Hall|].
      intros q (Hq1 & Hq2 & Hq3). repeat split; auto.
      destruct (decide (p_fieldname p = p_fieldname q)) as [Heq|Hne].
      * rewrite <- Heq, lookup_insert_eq in Hq3. simpl in Hq3. rewrite <- Heq. lia.
      * now rewrite lookup_insert_ne in Hq3.
    + now destruct (no_skip p).
Qed.

(** A run that ends well has met, in each field, no more parts than the
    field had left. *)
Lemma receive_counts (ps : list Part) (filesLeft : gmap string Z) (seen : Z)
    (acc fs : list File) (name : string) :
  receive o ps filesLeft seen acc = inr fs ->
  Z.of_nat (List.length (sent_in name ps))
  <= Z.max 0 (default 0 (filesLeft !! name)).
Proof.
  revert filesLeft seen acc.
  induction ps as [|p rest IH]; intros filesLeft seen acc; cbn [receive].
  - intros _. simpl. lia.
  - destruct (seen =? files (limits o)); [discriminate|].
    destruct (default 0 (filesLeft !! p_fieldname p) <=? 0) eqn:Hleft;
      [discriminate|].
    apply Z.leb_gt in Hleft.
    assert (Hrest : forall s a,
      receive o rest
        (<[p_fieldname p := default 0 (filesLeft !! p_fieldname p) - 1]> filesLeft)
        s a = inr fs ->
      Z.of_nat (List.length (sent_in name (p :: rest)))
      <= Z.max 0 (default 0 (filesLeft !! name))).
    { intros s a Hrun. specialize (IH _ _ _ Hrun).
      unfold sent_in in *. cbn [List.filter].
      destruct (String.eqb_spec (p_fieldname p) name) as [Heq|Hne].
      - subst name. rewrite lookup_insert_eq in IH. simpl in IH.
        cbn [List.length]. lia.
      - now rewrite lookup_insert_ne in IH. }
    destruct (fileFilter o p) as [[|]|e]; try discriminate.
    + destruct (fileSize (limits o) <? p_size p); [discriminate|]. apply Hrest.
    + apply Hrest.
Qed.

(** A run that ends well has met no more parts than [limits.files]. *)
Lemma receive_total (ps : list Part) (filesLeft : gmap string Z) (seen : Z)
    (acc fs : list File) :
  receive o ps filesLeft seen acc = inr fs ->
  seen <= files (limits o) ->
  seen + Z.of_nat (List.length ps) <= files (limits o).
Proof.
  revert filesLeft seen acc.
  induction ps as [|p rest IH]; intros filesLeft seen acc; cbn [receive].
  - intros _ H. simpl. lia.
  - destruct (seen =? files (limits o)) eqn:Hseen; [discriminate|].
    apply Z.eqb_neq in Hseen.
    destruct (default 0 (filesLeft !! p_fieldname p) <=? 0); [discriminate|].
    intros Hrun Hle.
    assert (Hrest : forall fL a,
      receive o rest fL (seen + 1) a = inr fs ->
      seen + Z.of_nat (List.length (p :: rest)) <= files (limits o)).
    { intros fL a Hr. specialize (IH _ _ _ Hr ltac:(lia)).
      cbn [List.length]. lia. }
    destruct (fileFilter o p) as [[|]|e]; try discriminate.
    + destruct (fileSize (limits o) <? p_size p); [discriminate|].
      eapply Hrest, Hrun.
    + eapply Hrest, Hrun.
Qed.

End Receive.

(** ** The upload middleware: what reaches the handler *)

Section UploadedFiles.
Import Js Http Upload UploadSpec.

Variable entropy : nat -> Z * Z.

Lemma combinedFileFilter_no_skip (p : Part) : combinedFileFilter p <> Ok false.
Proof.
  unfold combinedFileFilter, audioFileFilter, imageFileFilter.
  repeat match goal with |- context [if ?b then _ else _] => destruct b end;
    discriminate.
Qed.

Lemma imageFileFilter_no_skip (p : Part) : imageFileFilter p <> Ok false.
Proof.
  unfold imageFileFilter.
  match goal with |- context [if ?b then _ else _] => destruct b end;
    discriminate.
Qed.

(** The members of a group of [req.files] are stored files of that field. *)
Lemma group_members (fs : list File) (name : string) (l : list File) :
  Multer.group fs !! name = Some l ->
  forall f, In f l -> In f fs /\ fieldname f = name.
Proof.
  unfold Multer.group.
  assert (Gen : forall (rest known : list File) (m : gmap string (list File)),
    (forall n l', m !! n = Some l' ->
       forall f, In f l' -> In f known /\ fieldname f = n) ->
    (forall f, In f rest -> In f known) ->
    forall n l',
      fold_left (fun m f =>
        <[fieldname f := (default [] (m !! fieldname f) ++ [f])%list]> m) rest m
      !! n = Some l' ->
      forall f, In f l' -> In f known /\ fieldname f = n).
  { induction rest as [|g rest IH]; intros known m Hm Hknown n l'; cbn [fold_left].
    - apply Hm.
    - apply IH.
      + intros n0 l0 Hl0 f Hf.
        destruct (decide (fieldname g = n0)) as [<-|Hne].
        * rewrite lookup_insert_eq in Hl0. injection Hl0 as <-.
          apply in_app_or in Hf. destruct Hf as [Hf|[<-|[]]].
          -- destruct (m !! fieldname g) as [l1|] eqn:Hl1; [|destruct Hf].
             exact (Hm _ _ Hl1 f Hf).
          -- split; [apply Hknown; now left | reflexivity].
        * rewrite lookup_insert_ne in Hl0 by exact Hne. exact (Hm _ _ Hl0 f Hf).
      + intros f Hf. apply Hknown. now right. }
  intros Hl. apply (Gen fs fs ∅ ltac:(intros n l'; now rewrite lookup_empty)
                        ltac:(auto) name l Hl).
Qed.

(** How [uploadSongFiles] comes to call [next()], on a request that
    arrives without [files]. *)
Lemma uploadSongFiles_next (req req' : Request) :
  files req = None ->
  uploadSongFiles entropy req = Next req' ->
  exists ps fs audio0 others,
    parts req = Some ps
    /\ Multer.receive (songUpload entropy) ps
         (Multer.filesLeft_init
            [Multer.mkField "audio" 1; Multer.mkField "coverImage" 1]) 0 []
       = inr fs
    /\ Multer.group fs !! "audio" = Some (audio0 :: others)
    /\ let req2 :=
         set_audioFile (set_files req (Some (Multer.group fs)))
           (Some (mkFileWithUrl audio0 ("/uploads/audio/" +:+ filename audio0))) in
       (exists cover0 more,
           Multer.group fs !! "coverImage" = Some (cover0 :: more)
           /\ req' = set_coverImage req2
                (Some (mkFileWithUrl cover0
                         ("/uploads/images/" +:+ filename cover0))))
       \/ ((Multer.group fs !! "coverImage" = None
            \/ Multer.group fs !! "coverImage" = Some [])
           /\ req' = req2).
Proof.
  intros Hfresh. unfold uploadSongFiles, Multer.fields.
  destruct (parts req) as [ps|] eqn:Hparts.
  - destruct (Multer.receive _ ps _ 0 []) as [[code|e]|fs] eqn:Hrun;
      try discriminate.
    cbn [files set_files].
    destruct (Multer.group fs !! "audio") as [[|audio0 others]|] eqn:Haudio;
      try discriminate.
    intros [= <-]. exists ps, fs, audio0, others.
    repeat split; auto.
    destruct (Multer.group fs !! "coverImage") as [[|cover0 more]|];
      [right | left | right]; eauto.
  - rewrite Hfresh. discriminate.
Qed.

(** What the storage of the song upload makes of an accepted part. *)
Lemma stored_song_file (n : nat) (p : Part) :
  let f := Multer.store (songUpload entropy) n p in
  part_of f = p
  /\ destination f = storage_destination p
  /\ path f = destination f +:+ "/" +:+ filename f.
Proof. destruct p. repeat split. Qed.

(** Each stored file of a run comes from a part of the request. *)
Lemma stored_origin (o : Multer.Options) (Q : Part -> Prop)
    (ps : list Part) (stored : list File) (f : File) :
  Forall2 (fun p f => exists n, f = Multer.store o n p) ps stored ->
  Forall Q ps ->
  In f stored ->
  exists p n, In p ps /\ f = Multer.store o n p /\ Q p.
Proof.
  induction 1 as [|p g ps stored [n Hg] _ IH]; intros HQ Hf; [destruct Hf|].
  inversion HQ as [|? ? Hp HQ']; subst.
  destruct Hf as [<-|Hf].
  - exists p, n. split; [now left | auto].
  - destruct (IH HQ' Hf) as (q & m & Hq & Hfq & HQq).
    exists q, m. split; [now right | auto].
Qed.

(** The stored files of a song upload that ended well, one by one. *)
Lemma song_files_checked (ps : list Part) (fs : list File) (f : File) :
  Multer.receive (songUpload entropy) ps
    (Multer.filesLeft_init
       [Multer.mkField "audio" 1; Multer.mkField "coverImage" 1]) 0 []
  = inr fs ->
  In f fs ->
  In (part_of f) ps
  /\ combinedFileFilter (part_of f) = Ok true
  /\ size f <= 100 * 1024 * 1024
  /\ destination f = storage_destination (part_of f)
  /\ path f = destination f +:+ "/" +:+ filename f.
Proof.
  intros Hrun Hf.
  destruct (receive_stored (songUpload entropy) combinedFileFilter_no_skip
              _ _ _ _ _ Hrun) as (stored & -> & Hst & Hall).
  cbn [app] in Hf.
  destruct (stored_origin _ _ _ _ _ Hst Hall Hf) as (p & n & Hp & -> & Hok & Hsz & _).
  destruct (stored_song_file n p) as (Hpart & Hdest & Hpath).
  rewrite Hpart. repeat split; auto.
Qed.

(** The combined filter on the two fields it knows. *)
Lemma combined_on_audio (p : Part) :
  p_fieldname p = "audio" -> combinedFileFilter p = Ok true ->
  audioFileFilter p = Ok true.
Proof. unfold combinedFileFilter. now intros ->. Qed.

Lemma combined_on_cover (p : Part) :
  p_fieldname p = "coverImage" -> combinedFileFilter p = Ok true ->
  imageFileFilter p = Ok true.
Proof. unfold combinedFileFilter. now intros ->. Qed.


End UploadedFiles.

Section UploadRefusals.
Import Js Http Upload UploadSpec.

Variable entropy : nat -> Z * Z.

(** The only status of a refusal by [uploadSongFiles]. *)
Lemma song_upload_refusal (req : Request) (res : Response) :
  uploadSongFiles entropy req = Respond res -> res_status res = 400.
Proof.
  unfold uploadSongFiles.
  destruct (Multer.fields _ _ req) as [[code|e]|req1].
  - now intros [= <-].
  - now intros [= <-].
  - destruct (files req1) as [fs|]; [|now intros [= <-]].
    destruct (fs !! "audio") as [[|audio0 others]|];
      try (now intros [= <-]); discriminate.
Qed.

(** A fresh request let through had a part in the field [audio]. *)
Lemma song_upload_audio_sent (req req' : Request) :
  files req = None ->
  uploadSongFiles entropy req = Next req' ->
  exists ps fs,
    parts req = Some ps
    /\ Multer.receive (songUpload entropy) ps
         (Multer.filesLeft_init
            [Multer.mkField "audio" 1; Multer.mkField "coverImage" 1]) 0 []
       = inr fs
    /\ sent_in "audio" ps <> [].
Proof.
  intros Hfresh Hnext.
  destruct (uploadSongFiles_next entropy req req' Hfresh Hnext)
    as (ps & fs & audio0 & others & Hparts & Hrun & Haudio & _).
  destruct (group_members fs "audio" _ Haudio audio0 ltac:(now left))
    as [Hin Hfield].
  destruct (song_files_checked entropy ps fs audio0 Hrun Hin) as (Hpart & _).
  exists ps, fs. repeat split; auto.
  assert (Hmem : In (part_of audio0) (sent_in "audio" ps)).
  { unfold sent_in. apply filter_In. split; [exact Hpart|].
    cbn [part_of p_fieldname]. rewrite Hfield. reflexivity. }
  intros Hnone. rewrite Hnone in Hmem. destruct Hmem.
Qed.

(** X5. Whatever the request, the two upload middlewares refuse with
    status 400 and nothing else. *)
Theorem upload_refusals_are_400 (req : Request) (res : Response) :
  (uploadSongFiles entropy req = Respond res -> res_status res = 400)
  /\ (uploadProfileImage entropy req = Respond res -> res_status res = 400).
Proof.
  split; [apply song_upload_refusal|].
  unfold uploadProfileImage.
  destruct (Multer.single _ _ req) as [[code|e]|req1].
  - now intros [= <-].
  - now intros [= <-].
  - destruct (file req1); discriminate.
Qed.

(** X4. A fresh request that carries no file in the field [audio] (or is
    not multipart at all) never reaches the handler: [uploadSongFiles]
    answers 400. *)
Theorem upload_without_audio_is_refused (req : Request) :
  files req = None ->
  (forall ps, parts req = Some ps -> sent_in "audio" ps = []) ->
  exists res, uploadSongFiles entropy req = Respond res /\ res_status res = 400.
Proof.
  intros Hfresh Hnone.
  destruct (uploadSongFiles entropy req) as [res|req'] eqn:Hrun.
  - exists res. split; [reflexivity|]. exact (song_upload_refusal req res Hrun).
  - exfalso.
    destruct (song_upload_audio_sent req req' Hfresh Hrun)
      as (ps & fs & Hparts & _ & Hsent).
    exact (Hsent (Hnone ps Hparts)).
Qed.

(** The two fields of the song upload are the only ones with files left. *)
Lemma song_fields_left (name : string) :
  0 < default 0 (Multer.filesLeft_init
                   [Multer.mkField "audio" 1; Multer.mkField "coverImage" 1]
                 !! name) ->
  name = "audio" \/ name = "coverImage".
Proof.
  cbn [Multer.filesLeft_init fold_right Multer.name Multer.maxCount].
  destruct (decide (name = "audio")) as [->|Ha]; [now left|].
  destruct (decide (name = "coverImage")) as [->|Hc]; [now right|].
  rewrite !lookup_insert_ne, lookup_empty by congruence. simpl. lia.
Qed.

(** X6. A fresh request that [uploadSongFiles] lets through carried exactly
    one file in the field [audio], at most one in the field [coverImage],
    and no file in any other field (so at most two files). *)
Theorem accepted_upload_shape (req req' : Request) :
  files req = None ->
  uploadSongFiles entropy req = Next req' ->
  exists ps,
    parts req = Some ps
    /\ List.length (sent_in "audio" ps) = 1%nat
    /\ (List.length (sent_in "coverImage" ps) <= 1)%nat
    /\ Forall (fun p => p_fieldname p = "audio" \/ p_fieldname p = "coverImage") ps
    /\ (List.length ps <= 2)%nat.
Proof.
  intros Hfresh Hnext.
  destruct (song_upload_audio_sent req req' Hfresh Hnext)
    as (ps & fs & Hparts & Hrun & Hsent).
  exists ps. split; [exact Hparts|].
  pose proof (receive_counts (songUpload entropy) ps _ _ _ _ "audio" Hrun) as Ha.
  pose proof (receive_counts (songUpload entropy) ps _ _ _ _ "coverImage" Hrun) as Hc.
  pose proof (receive_total (songUpload entropy) ps _ _ _ _ Hrun ltac:(cbn; lia))
    as Htotal.
  destruct (receive_stored (songUpload entropy) (combinedFileFilter_no_skip)
              _ _ _ _ _ Hrun) as (_ & _ & _ & Hall).
  change (default 0 (Multer.filesLeft_init _ !! "audio")) with 1 in Ha.
  change (default 0 (Multer.filesLeft_init _ !! "coverImage")) with 1 in Hc.
  cbn in Htotal.
  assert (Hone : (1 <= List.length (sent_in "audio" ps))%nat).
  { destruct (sent_in "audio" ps); [now destruct Hsent | simpl; lia]. }
  repeat split; try lia.
  eapply Forall_impl; [exact Hall|].
  intros p (_ & _ & Hleft). now apply song_fields_left.
Qed.

End UploadRefusals.

Section UploadsOnSamples.
Import Js Http Upload UploadSpec.

(** A request without file part, one with a 1 GiB audio file, and an
    oversized avatar. *)
Lemma upload_refusals_are_400_witness :
  (exists res, uploadSongFiles Samples.entropy0 (Samples.multipart []) = Respond res
               /\ res_status res = 400)
  /\ (exists res,
         uploadSongFiles Samples.entropy0
           (Samples.multipart [mkPart "audio" "a.mp3" "audio/mpeg" (1024 * Samples.MiB)])
         = Respond res
         /\ res_status res = 400)
  /\ (exists res,
         uploadProfileImage Samples.entropy0
           (Samples.multipart [mkPart "avatar" "me.png" "image/png" (6 * Samples.MiB)])
         = Respond res
         /\ res_status res = 400).
Proof.
  split; [|split]; eexists;
    match goal with
    | |- ?run = ?rhs /\ _ => assert (E : run = rhs) by (vm_compute; reflexivity)
    end;
    (split; [exact E|]).
  - exact (proj1 (upload_refusals_are_400 Samples.entropy0 _ _) E).
  - exact (proj1 (upload_refusals_are_400 Samples.entropy0 _ _) E).
  - exact (proj2 (upload_refusals_are_400 Samples.entropy0 _ _) E).
Defined.

(** A cover image alone, and a request that is not multipart. *)
Lemma upload_without_audio_is_refused_witness :
  (exists res,
      uploadSongFiles Samples.entropy0
        (Samples.multipart [mkPart "coverImage" "c.png" "image/png" 10])
      = Respond res
      /\ res_status res = 400)
  /\ (exists res,
         uploadSongFiles Samples.entropy0 Http.empty_request = Respond res
         /\ res_status res = 400).
Proof.
  split.
  - apply (upload_without_audio_is_refused Samples.entropy0
             (Samples.multipart [mkPart "coverImage" "c.png" "image/png" 10])
             eq_refl).
    intros ps [= <-]. reflexivity.
  - apply (upload_without_audio_is_refused Samples.entropy0 Http.empty_request
             eq_refl).
    intros ps Hps. discriminate Hps.
Defined.

(** An audio file with its cover is let through, and has that shape. *)
Lemma accepted_upload_shape_witness :
  exists req' ps,
    uploadSongFiles Samples.entropy0
      (Samples.multipart [ mkPart "coverImage" "c.png" "image/png" 10;
                           mkPart "audio" "a.mp3" "audio/mpeg" 20 ])
    = Next req'
    /\ ps = [ mkPart "coverImage" "c.png" "image/png" 10;
              mkPart "audio" "a.mp3" "audio/mpeg" 20 ]
    /\ List.length (sent_in "audio" ps) = 1%nat.
Proof.
  eexists _, _.
  match goal with
  | |- ?run = ?rhs /\ _ => assert (E : run = rhs) by (vm_compute; reflexivity)
  end.
  split; [exact E|].
  destruct (accepted_upload_shape Samples.entropy0
              (Samples.multipart [ mkPart "coverImage" "c.png" "image/png" 10;
                                   mkPart "audio" "a.mp3" "audio/mpeg" 20 ])
              _ eq_refl E)
    as (ps & Hps & Haudio & _).
  injection Hps as <-. split; [reflexivity | exact Haudio].
Defined.


End UploadsOnSamples.

(** ** The profile image upload *)

Section ProfileImage.
Import Js Http Upload UploadSpec.

Variable entropy : nat -> Z * Z.


End ProfileImage.


(** ** Optional authentication *)

Section OptionalAuth.
Import Js Http Store Auth.

Variable jwt_verify : string -> string -> result Payload.
Variable JWT_SECRET : option string.
Variable drv : Driver.

(** X1. [optionalAuth] never blocks and never fails: whatever the header,
    the token service and the store do, it calls [next()] on the request
    with [req.user] set, leaving the store as it was; and the user it
    attaches, if any, is an active user of the store. *)
Theorem optionalAuth_never_blocks (req : Request) (db : Db) :
  exists who,
    optionalAuth jwt_verify JWT_SECRET drv req db
    = (Ok (Next (set_user req who)), db)
    /\ forall u, who = Some u ->
         UserModel.isActive u = true /\ exists id, users db !! id = Some u.
Proof.
  unfold optionalAuth, catch.
  destruct (header req "Authorization") as [h|];
    [|exists None; split; [reflexivity | discriminate]].
  destruct (negb (truthy (Some h)) || negb (startsWith h "Bearer "));
    [exists None; split; [reflexivity | discriminate]|].
  destruct (String.eqb (replace "Bearer " "" h) "");
    [exists None; split; [reflexivity | discriminate]|].
  unfold bind, lift_result, User_findById.
  destruct (jwt_verify _ _) as [p|e];
    [|exists None; split; [reflexivity | discriminate]].
  destruct (drv (FindUser (userId p))) as [e|];
    [exists None; split; [reflexivity | discriminate]|].
  destruct (userId p) as [id|];
    [|exists None; split; [reflexivity | discriminate]].
  destruct (users db !! id) as [u|] eqn:Hu;
    [|exists None; split; [reflexivity | discriminate]].
  destruct (UserModel.isActive u) eqn:Ha.
  - exists (Some u). split; [reflexivity|]. intros u' [= <-]. eauto.
  - exists None. split; [reflexivity | discriminate].
Qed.

(** X2. The two modes resolve the identity alike: when [authenticate] lets
    a request through, [optionalAuth] lets through the very same request
    (same user attached); when [authenticate] answers instead (401 or 500),
    [optionalAuth] proceeds anonymously. *)
Theorem optionalAuth_agrees_with_authenticate (req : Request) (db : Db) :
  match fst (authenticate jwt_verify JWT_SECRET drv req db) with
  | Ok (Next req1) =>
    optionalAuth jwt_verify JWT_SECRET drv req db = (Ok (Next req1), db)
  | _ =>
    optionalAuth jwt_verify JWT_SECRET drv req db
    = (Ok (Next (set_user req None)), db)
  end.
Proof.
  unfold authenticate, optionalAuth, catch.
  destruct (header req "Authorization") as [h|]; [|reflexivity].
  destruct (negb (truthy (Some h)) || negb (startsWith h "Bearer "));
    [reflexivity|].
  destruct (String.eqb (replace "Bearer " "" h) ""); [reflexivity|].
  unfold resolve_user, bind, lift_result, User_findById, on_jwtError.
  destruct (jwt_verify _ _) as [p|e].
  - destruct (drv (FindUser (userId p))) as [e|].
    + destruct (String.eqb (err_name e) "TokenExpiredError"); [reflexivity|].
      destruct (String.eqb (err_name e) "JsonWebTokenError"); reflexivity.
    + destruct (userId p) as [id|]; [|reflexivity].
      destruct (users db !! id) as [u|]; [|reflexivity].
      destruct (UserModel.isActive u); reflexivity.
  - destruct (String.eqb (err_name e) "TokenExpiredError"); [reflexivity|].
    destruct (String.eqb (err_name e) "JsonWebTokenError"); reflexivity.
Qed.

End OptionalAuth.
